(** * Chapter 2 page module ([src/pages/Chapter2.js])

    The repository holds one page module: the text of a book chapter on
    JavaScript variable scope, written as flat markup.  Headings are
    [<h1>]/[<h3>] lines, code listings sit between [<pre><code>] and
    [</code></pre>], braces and angle brackets inside the text are written
    as the numeric entities [&#123;], [&#125;], [&#60;] and [&#62;], and each
    item ends with a "Things to Remember" bullet list.

    This development embeds the file byte for byte, defines the scanners
    that read its markup, and proves the structural facts the chapter
    content model relies on: the listing delimiters are balanced, the
    heading levels nest, and entity decoding can be undone.  It then models
    the JavaScript functions the chapter prints in its listings and proves
    what the chapter says of them. *)

From Stdlib Require Import String Ascii List Bool Arith NArith Lia.
From Stdlib Require Import Permutation.
From Equations Require Import Equations.
Import ListNotations.
Open Scope string_scope.
Open Scope list_scope.

(** ** The page module, line by line

    [Chapter2_lines] are the 593 lines of [src/pages/Chapter2.js], in order;
    the number in front of each is its line number in the file.  The file
    has no final newline, so joining the lines with a newline gives back the
    file's bytes.  A double quote of the source is written [dq]. *)

Definition dq : string := String "034"%char EmptyString.
Definition newline : string := String "010"%char EmptyString.

Definition Chapter2_lines : list string :=
  [ (* 1 *) "<h1>Variable Scope</h1>"
  ; (* 2 *) "Scope is like oxygen to a programmer. It’s everywhere. You often don’t even think about it. But when it gets polluted . . . you choke."
  ; (* 3 *) "The good news is that JavaScript’s core scoping rules are simple, well designed, and incredibly powerful. But there are exceptions. Working effectively with JavaScript requires mastering some basic concepts of variable scope as well as the corner cases that can lead to subtle but nasty problems."
  ; (* 4 *) EmptyString
  ; (* 5 *) "<h3>Item 8: Minimize Use of the Global Object</h3>"
  ; (* 6 *) "JavaScript makes it easy to create variables in its global namespace. Global variables take less effort to create, since they don’t require  any kind of declaration, and they are automatically accessible to     all code throughout the program. This convenience makes them an easy temptation for beginners. But seasoned programmers know to avoid global variables. Defining global variables pollutes the common namespace shared by everyone, introducing the possibility of acci- dental name collisions. Globals go against the grain of modularity: They lead to unnecessary coupling between separate components of a program. As convenient as it may be to “code now and organize later,” the best programmers constantly pay attention to the structure of their programs, continuously grouping related functionality and sep- arating unrelated components as a part of the programming process."
  ; (* 7 *) "Since the global namespace is the only real way for separate com- ponents of a JavaScript program to interact, some uses of the global namespace are unavoidable. A component or library has to define a global name so that other parts of the program can use it. Otherwise, it’s best to keep variables as local as possible. It’s certainly possible  to write a program with nothing but global variables, but it’s asking for trouble. Even very simple functions that define their temporary"
  ; (* 8 *) " "
  ; (* 9 *) EmptyString
  ; (* 10 *) "variables globally would have to worry whether any other code might use those same variable names:"
  ; (* 11 *) "<pre><code>"
  ; (* 12 *) "var i, n, sum; // globals"
  ; (* 13 *) "function averageScore(players) &#123; sum = 0;"
  ; (* 14 *) "for (i = 0, n = players.length; i &#60; n; i++) &#123; sum += score(players[i]);"
  ; (* 15 *) "&#125;"
  ; (* 16 *) "return sum / n;"
  ; (* 17 *) "&#125;"
  ; (* 18 *) "</code></pre>"
  ; (* 19 *) "This definition of averageScore won’t work if the score function it depends on uses any of the same global variables for its own purposes:"
  ; (* 20 *) "<pre><code>"
  ; (* 21 *) "var i, n, sum; // same globals as averageScore!"
  ; (* 22 *) "function score(player) &#123; sum = 0;"
  ; (* 23 *) "for (i = 0, n = player.levels.length; i &#60; n; i++) &#123; sum += player.levels[i].score;"
  ; (* 24 *) "&#125;"
  ; (* 25 *) "return sum;"
  ; (* 26 *) "&#125;"
  ; (* 27 *) "</code></pre>"
  ; (* 28 *) "The answer is to keep such variables local to just the portion of code that needs them:"
  ; (* 29 *) "<pre><code>"
  ; (* 30 *) EmptyString
  ; (* 31 *) "function averageScore(players) &#123;"
  ; (* 32 *) "var i, n, sum; sum = 0;"
  ; (* 33 *) "for (i = 0, n = players.length; i &#60; n; i++) &#123; sum += score(players[i]);"
  ; (* 34 *) "&#125;"
  ; (* 35 *) "return sum / n;"
  ; (* 36 *) "&#125;"
  ; (* 37 *) EmptyString
  ; (* 38 *) "function score(player) &#123;"
  ; (* 39 *) "var i, n, sum; sum = 0;"
  ; (* 40 *) "for (i = 0, n = player.levels.length; i &#60; n; i++) &#123; sum += player.levels[i].score;"
  ; (* 41 *) "&#125;"
  ; (* 42 *) "return sum;"
  ; (* 43 *) "&#125;</code></pre>"
  ; (* 44 *) "JavaScript’s  global  namespace  is  also  exposed  as  a  global object,"
  ; (* 45 *) "which is accessible at the top of a program as the initial value of the this keyword. In web browsers, the global object is also bound to the global window variable. Adding or modifying global variables automat- ically updates the global object:"
  ; (* 46 *) "<pre><code>"
  ; (* 47 *) EmptyString
  ; (* 48 *) ("this.foo; // undefined foo = " ++ dq ++ "global foo" ++ dq ++ "; this.foo; // " ++ dq ++ "global foo" ++ dq)%string
  ; (* 49 *) "Similarly, updating the global object automatically updates the global namespace:"
  ; (* 50 *) ("var foo = " ++ dq ++ "global foo" ++ dq ++ "; this.foo = " ++ dq ++ "changed" ++ dq ++ "; foo; // " ++ dq ++ "changed" ++ dq)%string
  ; (* 51 *) "</code></pre>"
  ; (* 52 *) "This means that you have two mechanisms to choose from for creating a global variable: You can declare it with var in the global scope, or you can add it to the global object. Either works, but the var decla- ration has the benefit of more clearly conveying the effect on the pro- gram’s scope. Given that a reference to an unbound variable results in a runtime error, making scope clear and simple makes it easier for users of your code to understand what globals it declares."
  ; (* 53 *) "While it’s best to limit your use of the global object, it does provide one particularly indispensable use. Since the global object provides a dynamic reflection of the global environment, you can use it to query a running environment to detect which features are available on the platform. For example, ES5 introduced a new global JSON object for reading and writing the JSON data format. As a stopgap for deploying code in environments that may or may not have yet provided the JSON object, you can test the global object for its presence and provide an alternate implementation:"
  ; (* 54 *) "<pre><code>"
  ; (* 55 *) "if (!this.JSON) &#123;"
  ; (* 56 *) "this.JSON = &#123;"
  ; (* 57 *) "parse: ...,"
  ; (* 58 *) "stringify: ..."
  ; (* 59 *) "&#125;;"
  ; (* 60 *) "&#125;"
  ; (* 61 *) "</code></pre>"
  ; (* 62 *) "If you are already providing an implementation of JSON,  you could    of course simply use your own implementation unconditionally. But built-in implementations provided by the host environment are almost always preferable: They are highly tested for correctness and confor- mance to standards, and quite often provide better performance than a third-party implementation."
  ; (* 63 *) " "
  ; (* 64 *) EmptyString
  ; (* 65 *) "The technique of feature detection is especially important in web browsers, where the same code may be executed by a wide variety    of browsers and browser versions. Feature detection is a relatively easy way to make programs robust to the variations in platform fea- ture sets. The technique applies elsewhere, too, such as for sharing libraries that may work both in the browser and in JavaScript server environments."
  ; (* 66 *) EmptyString
  ; (* 67 *) "Things to Remember"
  ; (* 68 *) "✦	Avoid declaring global variables."
  ; (* 69 *) "✦	Declare variables as locally as possible."
  ; (* 70 *) "✦	Avoid adding properties to the global object."
  ; (* 71 *) "✦	Use the global object for platform feature detection."
  ; (* 72 *) EmptyString
  ; (* 73 *) "Item 9: Always Declare Local Variables"
  ; (* 74 *) "If there’s one thing more troublesome than a global variable, it’s an unintentional global variable. Unfortunately, JavaScript’s variable assignment rules make it all too easy to create global variables acci- dentally. Instead of raising an error, a program that assigns to an unbound variable simply creates a new global variable and assigns to it. This means that forgetting to declare a local variable silently turns it into a global variable:"
  ; (* 75 *) "<pre><code>"
  ; (* 76 *) "function swap(a, i, j) &#123; temp = a[i]; // global a[i] = a[j];"
  ; (* 77 *) "a[j] = temp;"
  ; (* 78 *) "&#125;"
  ; (* 79 *) "</code></pre>"
  ; (* 80 *) "This program manages to execute without error, even though the  lack of a var declaration for the temp variable leads to the accidental creation of a global variable. A proper implementation declares temp with var:"
  ; (* 81 *) "<pre><code>"
  ; (* 82 *) "function swap(a, i, j) &#123; var temp = a[i]; a[i] = a[j];"
  ; (* 83 *) "a[j] = temp;"
  ; (* 84 *) "&#125;"
  ; (* 85 *) "</code></pre>"
  ; (* 86 *) "Purposefully creating global variables is bad style, but accidentally creating global variables can be a downright disaster. Because of this, many programmers use lint tools, which inspect your program’s source code for bad style or potential bugs, and often feature the ability to report uses of unbound variables. Typically, a lint tool that checks for undeclared variables takes a user-provided set of known globals (such as those expected to exist in the host environment,     or globals defined in separate files) and then reports any references or assignments to variables that are neither provided in the list nor declared in the program. It’s worth taking some time to explore what development tools are available for JavaScript. Integrating automated checks for common errors such as accidental globals into your devel- opment process can be a lifesaver."
  ; (* 87 *) EmptyString
  ; (* 88 *) "Things to Remember"
  ; (* 89 *) "✦	Always declare new local variables with var."
  ; (* 90 *) "✦	Consider using lint tools to help check for unbound variables."
  ; (* 91 *) EmptyString
  ; (* 92 *) "<h3>Item 10: Avoid with</h3>"
  ; (* 93 *) "Poor with. There is probably no single more maligned feature in JavaScript. Nevertheless, with came by its notoriety honestly: What- ever conveniences it may offer, it more than makes up for them in unreliability and inefficiency."
  ; (* 94 *) "The motivations for with are understandable. Programs often need to call a number of methods in sequence on a single object, and it is con- venient to avoid repeated references to the object:"
  ; (* 95 *) "<pre><code>"
  ; (* 96 *) "function status(info) &#123;"
  ; (* 97 *) "var widget = new Widget();"
  ; (* 98 *) ("with (widget) &#123; setBackground(" ++ dq ++ "blue" ++ dq ++ "); setForeground(" ++ dq ++ "white" ++ dq ++ ");")%string
  ; (* 99 *) ("setText(" ++ dq ++ "Status: " ++ dq ++ " + info); // ambiguous reference")%string
  ; (* 100 *) "show();"
  ; (* 101 *) "&#125;"
  ; (* 102 *) "&#125;"
  ; (* 103 *) "</code></pre>"
  ; (* 104 *) "It’s also tempting to use with to “import” variables from objects serv- ing as modules:"
  ; (* 105 *) "<pre><code>"
  ; (* 106 *) EmptyString
  ; (* 107 *) "function f(x, y) &#123;"
  ; (* 108 *) "with (Math) &#123;"
  ; (* 109 *) "return min(round(x), sqrt(y)); // ambiguous references"
  ; (* 110 *) "&#125;"
  ; (* 111 *) "&#125;"
  ; (* 112 *) "</code></pre> "
  ; (* 113 *) EmptyString
  ; (* 114 *) "In both cases, with makes it temptingly easy to extract the properties of an object and bind them as local variables in the block."
  ; (* 115 *) "These examples look appealing. But neither actually does what it’s supposed to. Notice how both examples have two different kinds of variables: those that we expect to refer to properties of the with object, such as setBackground, round, and sqrt, and those that we expect to refer to outer variable bindings, such as info, x, and y. But nothing in the syntax actually distinguishes these two types of variables—they all just look like variables."
  ; (* 116 *) "In fact, JavaScript treats all variables the same: It  looks them up    in scope, starting with the innermost scope and working its way outward. The with statement treats an object as if it represented a variable scope, so inside the with block, variable lookup starts by searching for  a property of the given variable name. If the property   is not found in the object, then the search continues in outer scopes."
  ; (* 117 *) "Figure 2.1 shows a diagram of a JavaScript engine’s internal repre- sentation of the scope of the status function while executing the body of its with statement. This is known in the ES5 specification as the lexical environment (or scope chain in older versions of the standard). The innermost scope of the environment is provided by the widget object. The next scope out has bindings for the function’s local vari- ables info and widget. At the next level is a binding for the status function. Notice how, in a normal scope, there are exactly as many bindings stored in that level of the environment as there are vari- ables in that local scope. But for the with scope, the set of bindings is dependent on whatever happens to be in the object at a given point in time."
  ; (* 118 *) "How confident are we that we know what properties will or won’t be found on the object we provided to with? Every reference to an outer variable in a with block implicitly assumes that there is no property of the same name in the with object—or in any of its prototype objects. Other parts of the program that create or modify the with object   and its prototypes may not share those assumptions. They certainly should not have to read your local code to find what local variables you happen to be using."
  ; (* 119 *) "This conflict between variable scope and object namespaces makes with blocks extremely brittle. For example, if the widget object in the above example acquires an info property, then suddenly the behav- ior of the status function will use that property instead of the status function’s info parameter. This could happen during the evolution of the source code if, for example, a programmer decides that all widgets"
  ; (* 120 *) " <pre><code>"
  ; (* 121 *) EmptyString
  ; (* 122 *) ".hasOwnProperty"
  ; (* 123 *) ".toString"
  ; (* 124 *) ".valueOf"
  ; (* 125 *) EmptyString
  ; (* 126 *) ". . ."
  ; (* 127 *) "</code></pre>"
  ; (* 128 *) EmptyString
  ; (* 129 *) "Widget.prototype"
  ; (* 130 *) "Figure 2.1 Lexical environment (or “scope chain”) for the status function"
  ; (* 131 *) EmptyString
  ; (* 132 *) EmptyString
  ; (* 133 *) "should have an info property. Worse, something could add an info property to the Widget prototype object at runtime, causing the status function to start breaking at unpredictable points:"
  ; (* 134 *) "<pre><code>"
  ; (* 135 *) ("status(" ++ dq ++ "connecting" ++ dq ++ "); // Status: connecting Widget.prototype.info = " ++ dq ++ "[[widget info]]" ++ dq ++ "; status(" ++ dq ++ "connected" ++ dq ++ ");	// Status: [[widget info]]")%string
  ; (* 136 *) "Similarly, the function f above could be broken if someone adds an x"
  ; (* 137 *) "or y property to the Math object:"
  ; (* 138 *) "Math.x = 0;"
  ; (* 139 *) "Math.y = 0;"
  ; (* 140 *) "f(2, 9); // 0"
  ; (* 141 *) "</code></pre> "
  ; (* 142 *) EmptyString
  ; (* 143 *) "It might be unlikely that anyone would add x and y properties to Math. But it’s not always easy to predict whether a particular object might be modified, or might have properties you didn’t know about. And as it turns out, a feature that is unpredictable for humans can also be unpredictable for optimizing compilers. Normally, JavaScript scopes can be represented with efficient internal data structures  and variable lookups can be performed quickly. But because a with block requires searching an object’s prototype chain for all variables in its body, it will typically run much more slowly than an ordinary block."
  ; (* 144 *) "There is no single feature of JavaScript that directly replaces with as a better alternative. In some cases, the best alternative is simply to bind an object to a short variable name:"
  ; (* 145 *) "<pre><code>"
  ; (* 146 *) EmptyString
  ; (* 147 *) "function status(info) &#123;"
  ; (* 148 *) ("var w = new Widget(); w.setBackground(" ++ dq ++ "blue" ++ dq ++ "); w.setForeground(" ++ dq ++ "white" ++ dq ++ "); w.addText(" ++ dq ++ "Status: " ++ dq ++ " + info); w.show();")%string
  ; (* 149 *) "&#125;"
  ; (* 150 *) "</code></pre>"
  ; (* 151 *) "The behavior of this version is much more predictable. None of the variable references are sensitive to the contents of the object w. So even if some code modifies the Widget prototype, status continues to behave as expected:"
  ; (* 152 *) ("status(" ++ dq ++ "connecting" ++ dq ++ "); // Status: connecting Widget.prototype.info = " ++ dq ++ "[[widget info]]" ++ dq ++ "; status(" ++ dq ++ "connected" ++ dq ++ ");	// Status: connected")%string
  ; (* 153 *) "In other cases, the best approach is to bind local variables explicitly to the relevant properties:"
  ; (* 154 *) "<pre><code>"
  ; (* 155 *) "function f(x, y) &#123;"
  ; (* 156 *) "var min = Math.min, round = Math.round, sqrt = Math.sqrt;"
  ; (* 157 *) "return min(round(x), sqrt(y));"
  ; (* 158 *) "&#125;"
  ; (* 159 *) "Again, once we eliminate with, the function’s behavior becomes predictable:"
  ; (* 160 *) "Math.x = 0;"
  ; (* 161 *) "Math.y = 0;"
  ; (* 162 *) "f(2, 9); // 2"
  ; (* 163 *) "</code></pre> "
  ; (* 164 *) EmptyString
  ; (* 165 *) "Things to Remember"
  ; (* 166 *) "✦	Avoid using with statements."
  ; (* 167 *) "✦	Use short variable names for repeated access to an object."
  ; (* 168 *) "✦	Explicitly bind local variables to object properties instead of implic- itly binding them with a with statement."
  ; (* 169 *) EmptyString
  ; (* 170 *) "Item 11: Get Comfortable with Closures"
  ; (* 171 *) "Closures may be an unfamiliar concept to programmers coming from languages that don’t support them. And they may seem intimidating at first. But rest assured that making the effort to master closures will pay for itself many times over."
  ; (* 172 *) "Luckily, there’s really nothing to be afraid of. Understanding closures only requires learning three essential facts. The first fact is that JavaScript allows you to refer to variables that were defined outside of the current function:"
  ; (* 173 *) "<pre><code>"
  ; (* 174 *) EmptyString
  ; (* 175 *) "function makeSandwich() &#123;"
  ; (* 176 *) ("var magicIngredient = " ++ dq ++ "peanut butter" ++ dq ++ ";")%string
  ; (* 177 *) "function make(filling) &#123;"
  ; (* 178 *) ("return magicIngredient + " ++ dq ++ " and " ++ dq ++ " + filling;")%string
  ; (* 179 *) "&#125;"
  ; (* 180 *) ("return make(" ++ dq ++ "jelly" ++ dq ++ ");")%string
  ; (* 181 *) "&#125;"
  ; (* 182 *) ("makeSandwich(); // " ++ dq ++ "peanut butter and jelly" ++ dq)%string
  ; (* 183 *) "</code></pre>"
  ; (* 184 *) "Notice how the inner make function refers to magicIngredient, a vari- able defined in the outer makeSandwich function."
  ; (* 185 *) "The second fact is that functions can refer to variables defined in outer functions even after those outer functions have returned! If that sounds implausible, remember that JavaScript functions are first- class objects (see Item 19). That means that you can return an inner function to be called sometime later on:"
  ; (* 186 *) "function sandwichMaker() &#123;"
  ; (* 187 *) ("var magicIngredient = " ++ dq ++ "peanut butter" ++ dq ++ ";")%string
  ; (* 188 *) "function make(filling) &#123;"
  ; (* 189 *) ("return magicIngredient + " ++ dq ++ " and " ++ dq ++ " + filling;")%string
  ; (* 190 *) "&#125;"
  ; (* 191 *) "return make;"
  ; (* 192 *) "&#125;"
  ; (* 193 *) "var f = sandwichMaker();"
  ; (* 194 *) ("f(" ++ dq ++ "jelly" ++ dq ++ ");	// " ++ dq ++ "peanut butter and jelly" ++ dq)%string
  ; (* 195 *) " "
  ; (* 196 *) EmptyString
  ; (* 197 *) ("f(" ++ dq ++ "bananas" ++ dq ++ ");	// " ++ dq ++ "peanut butter and bananas" ++ dq)%string
  ; (* 198 *) ("f(" ++ dq ++ "marshmallows" ++ dq ++ "); // " ++ dq ++ "peanut butter and marshmallows" ++ dq)%string
  ; (* 199 *) ("This is almost identical to the first example, except that instead       of immediately calling make(" ++ dq ++ "jelly" ++ dq ++ ") inside the outer function, sandwichMaker returns the make function itself. So the value of f is the inner make function, and calling f effectively calls make. But some- how, even though sandwichMaker already returned, make remembers the value of magicIngredient.")%string
  ; (* 200 *) "How does this work? The answer is that JavaScript function values contain more information than just the code required to execute when they’re called. They also internally store any variables they may refer to that are defined in their enclosing scopes. Functions that keep track of variables from their containing scopes are known as closures. The make function is a closure whose code refers to two outer variables: magicIngredient and filling. Whenever the make function is called, its code is able to refer to these two variables because they are stored in the closure."
  ; (* 201 *) "A function can refer to any variables in its scope, including the parameters and variables of outer functions. We can use this to make a more general-purpose sandwichMaker:"
  ; (* 202 *) "function sandwichMaker(magicIngredient) &#123;"
  ; (* 203 *) "function make(filling) &#123;"
  ; (* 204 *) ("return magicIngredient + " ++ dq ++ " and " ++ dq ++ " + filling;")%string
  ; (* 205 *) "&#125;"
  ; (* 206 *) "return make;"
  ; (* 207 *) "&#125;"
  ; (* 208 *) ("var hamAnd = sandwichMaker(" ++ dq ++ "ham" ++ dq ++ "); hamAnd(" ++ dq ++ "cheese" ++ dq ++ ");	// " ++ dq ++ "ham and cheese" ++ dq ++ " hamAnd(" ++ dq ++ "mustard" ++ dq ++ ");	// " ++ dq ++ "ham and mustard" ++ dq ++ " var turkeyAnd = sandwichMaker(" ++ dq ++ "turkey" ++ dq ++ "); turkeyAnd(" ++ dq ++ "Swiss" ++ dq ++ ");	// " ++ dq ++ "turkey and Swiss" ++ dq)%string
  ; (* 209 *) ("turkeyAnd(" ++ dq ++ "Provolone" ++ dq ++ ");	// " ++ dq ++ "turkey and Provolone" ++ dq)%string
  ; (* 210 *) ("This example creates two distinct functions, hamAnd and turkeyAnd. Even though they both come from the same make definition, they are two distinct objects: The first function stores " ++ dq ++ "ham" ++ dq ++ " as the value of magicIngredient, and the second stores " ++ dq ++ "turkey" ++ dq ++ ".")%string
  ; (* 211 *) "Closures are one of JavaScript’s most elegant and expressive features, and are at the heart of many useful idioms. JavaScript even provides a more convenient literal syntax for constructing closures, the func- tion expression:"
  ; (* 212 *) " "
  ; (* 213 *) EmptyString
  ; (* 214 *) "function sandwichMaker(magicIngredient) &#123;"
  ; (* 215 *) "return function(filling) &#123;"
  ; (* 216 *) ("return magicIngredient + " ++ dq ++ " and " ++ dq ++ " + filling;")%string
  ; (* 217 *) "&#125;;"
  ; (* 218 *) "&#125;"
  ; (* 219 *) "Notice that this function expression is anonymous: It’s not even nec- essary to name the function since we are only evaluating it to produce a new function value, but do not intend to call it locally. Function expressions can have names as well (see Item 14)."
  ; (* 220 *) "The third and final fact to learn about closures is that they can update the values of outer variables. Closures actually store refer- ences to their outer variables, rather than copying their values. So updates are visible to any closures that have access to them. A simple idiom that illustrates this is a box—an object that stores an internal value that can be read and updated:"
  ; (* 221 *) "function box() &#123;"
  ; (* 222 *) "var val = undefined;"
  ; (* 223 *) "return &#123;"
  ; (* 224 *) "set: function(newVal) &#123; val = newVal; &#125;, get: function() &#123; return val; &#125;,"
  ; (* 225 *) "type: function() &#123; return typeof val; &#125;"
  ; (* 226 *) "&#125;;"
  ; (* 227 *) "&#125;"
  ; (* 228 *) "var b = box();"
  ; (* 229 *) ("b.type(); // " ++ dq ++ "undefined" ++ dq)%string
  ; (* 230 *) "b.set(98.6);"
  ; (* 231 *) "b.get();	// 98.6"
  ; (* 232 *) ("b.type(); // " ++ dq ++ "number" ++ dq)%string
  ; (* 233 *) "This example produces an object containing three closures: its set, get, and type properties. Each of these closures shares access to the val variable. The set closure updates the value of val, and subse- quently calling get and type sees the results of the update."
  ; (* 234 *) EmptyString
  ; (* 235 *) "Things to Remember"
  ; (* 236 *) "✦	Functions can refer to variables defined in outer scopes."
  ; (* 237 *) "✦	Closures can outlive the function that creates them."
  ; (* 238 *) "✦	Closures internally store references to their outer variables, and can both read and update their stored variables."
  ; (* 239 *) " "
  ; (* 240 *) EmptyString
  ; (* 241 *) "Item 12: Understand Variable Hoisting"
  ; (* 242 *) "JavaScript supports lexical scoping: With only a few exceptions, a ref- erence to a variable foo is bound to the nearest scope in which foo was declared. However, JavaScript does not support block scoping: Variable definitions are not scoped to their nearest enclosing state- ment or block, but rather to their containing function."
  ; (* 243 *) "Failing to understand this idiosyncrasy of JavaScript can lead to sub- tle bugs such as this:"
  ; (* 244 *) "function isWinner(player, others) &#123;"
  ; (* 245 *) "var highest = 0;"
  ; (* 246 *) "for (var i = 0, n = others.length; i &#60; n; i++) &#123;"
  ; (* 247 *) "var player = others[i];"
  ; (* 248 *) "if (player.score &#62; highest) &#123; highest = player.score;"
  ; (* 249 *) "&#125;"
  ; (* 250 *) "&#125;"
  ; (* 251 *) "return player.score &#62; highest;"
  ; (* 252 *) "&#125;"
  ; (* 253 *) "This program appears to  declare  a  local  variable  player within  the body of a for loop. But because JavaScript variables are func- tion-scoped rather than block-scoped, the inner declaration of player simply redeclares a variable that was already in scope—namely, the player parameter. Each iteration of the loop then overwrites the same variable. As a result, the return statement sees player as the last ele- ment of others instead of the function’s original player argument."
  ; (* 254 *) "A good way to think about the behavior of JavaScript variable decla- rations is to understand them as consisting of two parts: a declara- tion and an assignment. JavaScript implicitly “hoists” the declaration part to the top of the enclosing function and leaves the assignment in place. In other words, the variable is in scope for the entire function, but it is only assigned at the point where the var statement appears. Figure 2.2 provides a visualization of hoisting."
  ; (* 255 *) "Hoisting can also lead to confusion about  variable redeclaration.  It is legal to declare the same variable multiple times within the same function. This often comes up when writing multiple loops:"
  ; (* 256 *) "function trimSections(header, body, footer) &#123;"
  ; (* 257 *) "for (var i = 0, n = header.length; i &#60; n; i++) &#123; header[i] = header[i].trim();"
  ; (* 258 *) "&#125;"
  ; (* 259 *) " "
  ; (* 260 *) "Item 12:  Understand Variable Hoisting	43"
  ; (* 261 *) "for (var i = 0, n = body.length; i &#60; n; i++) &#123; body[i] = body[i].trim();"
  ; (* 262 *) "&#125;"
  ; (* 263 *) "for (var i = 0, n = footer.length; i &#60; n; i++) &#123; footer[i] = footer[i].trim();"
  ; (* 264 *) "&#125;"
  ; (* 265 *) "&#125;"
  ; (* 266 *) "The trimSections function appears to declare six local variables (three called i and three called n), but hoisting results in only two. In other words, after hoisting, the trimSections function is equivalent to this rewritten version:"
  ; (* 267 *) "function trimSections(header, body, footer) &#123;"
  ; (* 268 *) "var i, n;"
  ; (* 269 *) "for (i = 0, n = header.length; i &#60; n; i++) &#123; header[i] = header[i].trim();"
  ; (* 270 *) "&#125;"
  ; (* 271 *) "for (i = 0, n = body.length; i &#60; n; i++) &#123; body[i] = body[i].trim();"
  ; (* 272 *) "&#125;"
  ; (* 273 *) "for (i = 0, n = footer.length; i &#60; n; i++) &#123; footer[i] = footer[i].trim();"
  ; (* 274 *) "&#125;"
  ; (* 275 *) "&#125;"
  ; (* 276 *) "Because redeclarations can lead to the appearance of distinct vari- ables, some programmers prefer to place all var declarations at the top of their functions, effectively hoisting their variables manually, in order to avoid ambiguity. Regardless of whether you prefer this style, it’s important to understand the scoping rules of JavaScript, both for writing and reading code."
  ; (* 277 *) EmptyString
  ; (* 278 *) " "
  ; (* 279 *) EmptyString
  ; (* 280 *) "function f() &#123;"
  ; (* 281 *) "// ..."
  ; (* 282 *) "// ..."
  ; (* 283 *) "&#123;"
  ; (* 284 *) "// ..."
  ; (* 285 *) "var x = / ...	/;"
  ; (* 286 *) "// ..."
  ; (* 287 *) "&#125;"
  ; (* 288 *) "// ..."
  ; (* 289 *) "&#125;"
  ; (* 290 *) "Figure 2.2 Variable hoisting"
  ; (* 291 *) " "
  ; (* 292 *) EmptyString
  ; (* 293 *) "function f() &#123;"
  ; (* 294 *) "var x;"
  ; (* 295 *) "// ..."
  ; (* 296 *) "&#123;"
  ; (* 297 *) "// ..."
  ; (* 298 *) "x = / ...	/;"
  ; (* 299 *) "// ..."
  ; (* 300 *) "&#125;"
  ; (* 301 *) "// ..."
  ; (* 302 *) "&#125;"
  ; (* 303 *) " "
  ; (* 304 *) EmptyString
  ; (* 305 *) "The one exception to JavaScript’s lack of block scoping is, appropri- ately enough, exceptions. That is, try…catch binds a caught exception to a variable that is scoped just to the catch block:"
  ; (* 306 *) "function test() &#123;"
  ; (* 307 *) ("var x = " ++ dq ++ "var" ++ dq ++ ", result = []; result.push(x);")%string
  ; (* 308 *) "try &#123;"
  ; (* 309 *) ("throw " ++ dq ++ "exception" ++ dq ++ ";")%string
  ; (* 310 *) "&#125; catch (x) &#123;"
  ; (* 311 *) ("x = " ++ dq ++ "catch" ++ dq ++ ";")%string
  ; (* 312 *) "&#125;"
  ; (* 313 *) "result.push(x);"
  ; (* 314 *) "return result;"
  ; (* 315 *) "&#125;"
  ; (* 316 *) ("test(); // [" ++ dq ++ "var" ++ dq ++ ", " ++ dq ++ "var" ++ dq ++ "]")%string
  ; (* 317 *) EmptyString
  ; (* 318 *) "Things to Remember"
  ; (* 319 *) "✦	Variable declarations within a block are implicitly hoisted to the top of their enclosing function."
  ; (* 320 *) "✦	Redeclarations of a variable are treated as a single variable."
  ; (* 321 *) "✦	Consider manually hoisting local variable declarations to avoid confusion."
  ; (* 322 *) EmptyString
  ; (* 323 *) "Item 13: Use Immediately Invoked Function Expressions to Create Local Scopes"
  ; (* 324 *) "What does this (buggy!) program compute?"
  ; (* 325 *) "function wrapElements(a) &#123;"
  ; (* 326 *) "var result = [], i, n;"
  ; (* 327 *) "for (i = 0, n = a.length; i &#60; n; i++) &#123; result[i] = function() &#123; return a[i]; &#125;;"
  ; (* 328 *) "&#125;"
  ; (* 329 *) "return result;"
  ; (* 330 *) "&#125;"
  ; (* 331 *) EmptyString
  ; (* 332 *) "var wrapped = wrapElements([10, 20, 30, 40, 50]);"
  ; (* 333 *) "var f = wrapped[0]; f(); // ?"
  ; (* 334 *) "The programmer may have intended for it to produce 10, but it actu- ally produces the undefined value."
  ; (* 335 *) " "
  ; (* 336 *) "Item 13:  Use IIFEs to Create Local Scopes	45"
  ; (* 337 *) EmptyString
  ; (* 338 *) "The way to make sense of this example is to understand the distinc- tion between binding and assignment. Entering a scope at runtime allocates a “slot” in memory for each variable binding in that scope. The wrapElements function binds three local variables: result, i, and"
  ; (* 339 *) "n. So when it is called, wrapElements allocates slots for these three variables. On each iteration of the loop, the loop body allocates a clo- sure for the nested function. The bug in the program comes from the fact that the programmer apparently expected the function to store the value of i at the time the nested function was created. But in fact, it contains a reference to i. Since the value of i changes after each function is created, the inner functions end up seeing the final value of i. This is the key point about closures:"
  ; (* 340 *) "Closures store their outer variables by reference, not by value."
  ; (* 341 *) "So all the closures created by wrapElements refer to the single shared slot for i that was created before the loop. Since each iteration of the loop increments i until it runs off the end of the array, by the time we actually call one of the closures, it looks up index 5 of the array and returns undefined."
  ; (* 342 *) "Notice that wrapElements would behave exactly the same even if we put the var declarations in the head of the for loop:"
  ; (* 343 *) "function wrapElements(a) &#123;"
  ; (* 344 *) "var result = [];"
  ; (* 345 *) "for (var i = 0, n = a.length; i &#60; n; i++) &#123; result[i] = function() &#123; return a[i]; &#125;;"
  ; (* 346 *) "&#125;"
  ; (* 347 *) "return result;"
  ; (* 348 *) "&#125;"
  ; (* 349 *) EmptyString
  ; (* 350 *) "var wrapped = wrapElements([10, 20, 30, 40, 50]);"
  ; (* 351 *) "var f = wrapped[0]; f(); // undefined"
  ; (* 352 *) "This version looks even a bit more deceptive, because the var declara- tion appears to be inside the loop. But as always, the variable decla- rations are hoisted to the top of the loop. So once again, there is only a single slot allocated for the variable i."
  ; (* 353 *) "The solution is to force the creation of a local scope by creating a nested function and calling it right away:"
  ; (* 354 *) "function wrapElements(a) &#123;"
  ; (* 355 *) "var result = [];"
  ; (* 356 *) "for (var i = 0, n = a.length; i &#60; n; i++) &#123;"
  ; (* 357 *) " "
  ; (* 358 *) EmptyString
  ; (* 359 *) "(function() &#123;"
  ; (* 360 *) "var j = i;"
  ; (* 361 *) "result[i] = function() &#123; return a[j]; &#125;;"
  ; (* 362 *) "&#125;)();"
  ; (* 363 *) "&#125;"
  ; (* 364 *) "return result;"
  ; (* 365 *) "&#125;"
  ; (* 366 *) "This technique, known as the immediately invoked function expres- sion, or IIFE (pronounced “iffy”), is an indispensable workaround for JavaScript’s lack of block scoping. An alternate variation is to bind the local variable as a parameter to the IIFE and pass its value as an argument:"
  ; (* 367 *) "function wrapElements(a) &#123;"
  ; (* 368 *) "var result = [];"
  ; (* 369 *) "for (var i = 0, n = a.length; i &#60; n; i++) &#123; (function(j) &#123;"
  ; (* 370 *) "result[i] = function() &#123; return a[j]; &#125;;"
  ; (* 371 *) "&#125;)(i);"
  ; (* 372 *) "&#125;"
  ; (* 373 *) "return result;"
  ; (* 374 *) "&#125;"
  ; (* 375 *) "However, be careful when using an IIFE to create a local scope, because wrapping a block in a function can introduce some subtle changes to the block. First of all, the block cannot contain any break or continue statements that jump outside of the block, since it is ille- gal to break or continue outside of a function. Second, if the block refers to this or the special arguments variable, the IIFE changes their meaning. Chapter 3 discusses techniques for working with this and arguments."
  ; (* 376 *) EmptyString
  ; (* 377 *) "Things to Remember"
  ; (* 378 *) "✦	Understand the difference between binding and assignment."
  ; (* 379 *) "✦	Closures capture their outer variables by reference, not by value."
  ; (* 380 *) "✦	Use immediately invoked function expressions (IIFEs) to create local scopes."
  ; (* 381 *) "✦	Be aware of the cases where wrapping a block in an IIFE can change its behavior."
  ; (* 382 *) " "
  ; (* 383 *) EmptyString
  ; (* 384 *) "Item 14: Beware of Unportable Scoping of Named Function Expressions"
  ; (* 385 *) "JavaScript functions may look the same wherever they go, but their meaning changes depending on the context. Take a code snippet such as the following:"
  ; (* 386 *) "function double(x) &#123; return x	2; &#125;"
  ; (* 387 *) "Depending on where it appears, this could be either a function dec- laration or a named function expression. A declaration is familiar: It defines a function and binds it to a variable in the current scope. At the top level of a program, for example, the above declaration would create a global function called double. But the same function code can be used as an expression, where it has a very different meaning. For example:"
  ; (* 388 *) "var f = function double(x) &#123; return x	2; &#125;;"
  ; (* 389 *) "According to the ECMAScript specification, this binds the function   to a variable f rather than double. Of course, we don’t have to give a function expression a name. We could use the anonymous function expression form:"
  ; (* 390 *) "var f = function(x) &#123; return x	2; &#125;;"
  ; (* 391 *) "The official difference between anonymous and named function expressions is that the latter binds its name as a local variable within the function. This can be used to write recursive function expressions:"
  ; (* 392 *) "var f = function find(tree, key) &#123;"
  ; (* 393 *) "if (!tree) &#123;"
  ; (* 394 *) "return null;"
  ; (* 395 *) "&#125;"
  ; (* 396 *) "if (tree.key === key) &#123;"
  ; (* 397 *) "return tree.value;"
  ; (* 398 *) "&#125;"
  ; (* 399 *) "return find(tree.left, key) || find(tree.right, key);"
  ; (* 400 *) "&#125;;"
  ; (* 401 *) "Note that find is only in scope within the function itself. Unlike a function declaration, a named function expression can’t be referred to externally by its internal name:"
  ; (* 402 *) ("find(myTree, " ++ dq ++ "foo" ++ dq ++ "); // error: find is not defined")%string
  ; (* 403 *) " "
  ; (* 404 *) EmptyString
  ; (* 405 *) "Using named function expressions for recursion may not seem par- ticularly useful, since it’s fine to use the outer scope’s name for the function:"
  ; (* 406 *) "var f = function(tree, key) &#123;"
  ; (* 407 *) "if (!tree) &#123;"
  ; (* 408 *) "return null;"
  ; (* 409 *) "&#125;"
  ; (* 410 *) "if (tree.key === key) &#123;"
  ; (* 411 *) "return tree.value;"
  ; (* 412 *) "&#125;"
  ; (* 413 *) "return f(tree.left, key) || f(tree.right, key);"
  ; (* 414 *) "&#125;;"
  ; (* 415 *) "Or we could just use a declaration:"
  ; (* 416 *) "function find(tree, key) &#123;"
  ; (* 417 *) "if (!tree) &#123;"
  ; (* 418 *) "return null;"
  ; (* 419 *) "&#125;"
  ; (* 420 *) "if (tree.key === key) &#123;"
  ; (* 421 *) "return tree.value;"
  ; (* 422 *) "&#125;"
  ; (* 423 *) "return find(tree.left, key) || find(tree.right, key);"
  ; (* 424 *) "&#125;"
  ; (* 425 *) "var f = find;"
  ; (* 426 *) "The real usefulness of named function expressions, though, is for debugging. Most modern JavaScript environments produce stack traces for Error objects, and the name of a function expression is typ- ically used for its entry in a stack trace. Debuggers with facilities for inspecting the stack typically make similar use of named function expressions."
  ; (* 427 *) "Sadly, named function expressions have been a notorious source of scoping and compatibility issues, due to a combination of an unfor- tunate mistake in the history of the ECMAScript specification and bugs in popular JavaScript engines. The specification mistake, which existed through ES3, was that JavaScript engines were required to represent the scope of a named function expression as an object, much like the problematic with construct. While this scope object only contains a single property binding the function’s name to the func- tion, it also inherits properties from Object.prototype. This means that just naming a function expression also brings all of the proper- ties of Object.prototype into scope. The results can be surprising:"
  ; (* 428 *) " "
  ; (* 429 *) EmptyString
  ; (* 430 *) "var constructor = function() &#123; return null; &#125;;"
  ; (* 431 *) "var f = function f() &#123;"
  ; (* 432 *) "return constructor();"
  ; (* 433 *) "&#125;;"
  ; (* 434 *) "f(); // &#123;&#125; (in ES3 environments)"
  ; (* 435 *) "This program looks like it should produce null, but it actually pro- duces a new object, because the named function expression inherits Object.prototype.constructor (i.e., the Object constructor function) in its scope. And just like with, the scope is affected by dynamic changes to Object.prototype. One part of a program could add or delete properties to Object.prototype and variables within named function expressions everywhere would be affected."
  ; (* 436 *) "Thankfully, ES5 corrected this mistake. But some JavaScript envi- ronments continue to use the obsolete object scoping. Worse, some are even less standards-compliant and use objects as scopes even   for anonymous function expressions! Then, even removing the func- tion expression’s name in the preceding example produces an object instead of the expected null:"
  ; (* 437 *) "var constructor = function() &#123; return null; &#125;;"
  ; (* 438 *) "var f = function() &#123;"
  ; (* 439 *) "return constructor();"
  ; (* 440 *) "&#125;;"
  ; (* 441 *) "f(); // &#123;&#125; (in nonconformant environments)"
  ; (* 442 *) "The best way to avoid these problems on systems that pollute their function expressions’ scopes with objects is to avoid ever adding new properties to Object.prototype and avoid using local variables with any of the names of the standard Object.prototype properties."
  ; (* 443 *) "The next bug seen in popular JavaScript engines is hoisting named function expressions as if they were declarations. For example:"
  ; (* 444 *) "var f = function g() &#123; return 17; &#125;;"
  ; (* 445 *) "g(); // 17 (in nonconformant environments)"
  ; (* 446 *) "To be clear, this is not standards-compliant behavior. Worse, some JavaScript environments even treat the two functions f and g as dis- tinct objects, leading to unnecessary memory allocation! A reason- able workaround for this behavior is to create a local variable of the same name as the function expression and assign it to null:"
  ; (* 447 *) "var f = function g() &#123; return 17; &#125;;"
  ; (* 448 *) "var g = null;"
  ; (* 449 *) "Redeclaring the variable with var ensures that g is bound even in those environments that do not erroneously hoist the function"
  ; (* 450 *) " "
  ; (* 451 *) EmptyString
  ; (* 452 *) "expression, and setting it to null ensures that the duplicate function can be garbage-collected."
  ; (* 453 *) "It would certainly be reasonable to conclude that named function expressions are just too problematic to be worth using. A less aus- tere response would be to use named function expressions during development for debugging, and to run code through a preprocessor to anonymize all function expressions before shipping. But one thing is certain: You should always be clear about what platforms you are shipping on (see Item 1). The worst thing you could do is to litter your code with workarounds that aren’t even necessary for the platforms you support."
  ; (* 454 *) EmptyString
  ; (* 455 *) "Things to Remember"
  ; (* 456 *) "✦	Use named function expressions to improve stack traces in Error"
  ; (* 457 *) "objects and debuggers."
  ; (* 458 *) "✦	Beware of pollution of function expression scope with Object"
  ; (* 459 *) ".prototype in ES3 and buggy JavaScript environments."
  ; (* 460 *) "✦	Beware of hoisting and duplicate allocation of named function expressions in buggy JavaScript environments."
  ; (* 461 *) "✦	Consider avoiding named function expressions or removing them before shipping."
  ; (* 462 *) "✦	If you are shipping in properly implemented ES5 environments, you’ve got nothing to worry about."
  ; (* 463 *) EmptyString
  ; (* 464 *) "Item 15: Beware of Unportable Scoping of Block-Local Function Declarations"
  ; (* 465 *) "The saga of context sensitivity continues with nested function decla- rations. It may surprise you to know that there is no standard way to declare functions inside a local block. Now, it’s perfectly legal and cus- tomary to nest a function declaration at the top of another function:"
  ; (* 466 *) ("function f() &#123; return " ++ dq ++ "global" ++ dq ++ "; &#125;")%string
  ; (* 467 *) EmptyString
  ; (* 468 *) "function test(x) &#123;"
  ; (* 469 *) ("function f() &#123; return " ++ dq ++ "local" ++ dq ++ "; &#125;")%string
  ; (* 470 *) EmptyString
  ; (* 471 *) "var result = [];"
  ; (* 472 *) "if (x) &#123;"
  ; (* 473 *) "result.push(f());"
  ; (* 474 *) "&#125;"
  ; (* 475 *) " "
  ; (* 476 *) "Item 15: Beware of Unportable Scoping of Block-Local Function Declarations 51"
  ; (* 477 *) EmptyString
  ; (* 478 *) "result.push(f());"
  ; (* 479 *) "return result;"
  ; (* 480 *) "&#125;"
  ; (* 481 *) EmptyString
  ; (* 482 *) ("test(true);	// [" ++ dq ++ "local" ++ dq ++ ", " ++ dq ++ "local" ++ dq ++ "]")%string
  ; (* 483 *) ("test(false); // [" ++ dq ++ "local" ++ dq ++ "]")%string
  ; (* 484 *) "But it’s an entirely different story if we move f into a local block:"
  ; (* 485 *) ("function f() &#123; return " ++ dq ++ "global" ++ dq ++ "; &#125;")%string
  ; (* 486 *) EmptyString
  ; (* 487 *) "function test(x) &#123; var result = []; if (x) &#123;"
  ; (* 488 *) ("function f() &#123; return " ++ dq ++ "local" ++ dq ++ "; &#125; // block-local")%string
  ; (* 489 *) EmptyString
  ; (* 490 *) "result.push(f());"
  ; (* 491 *) "&#125;"
  ; (* 492 *) "result.push(f());"
  ; (* 493 *) "return result;"
  ; (* 494 *) "&#125;"
  ; (* 495 *) EmptyString
  ; (* 496 *) "test(true);	// ?"
  ; (* 497 *) "test(false); // ?"
  ; (* 498 *) ("You might expect the first call to test to  produce  the  array  [" ++ dq ++ "local" ++ dq ++ ", " ++ dq ++ "global" ++ dq ++ "] and the second to produce [" ++ dq ++ "global" ++ dq ++ "], since the inner f appears to be local to the if block. But recall that JavaScript is not block-scoped, so the inner f should be in scope for the whole body of test. A reasonable second guess would be [" ++ dq ++ "local" ++ dq ++ ", " ++ dq ++ "local" ++ dq ++ "] and [" ++ dq ++ "local" ++ dq ++ "]. And in fact, some JavaScript environments behave this way. But not all of them! Others conditionally bind the inner f at runtime, based on whether its enclosing block is executed. (Not only does this make code harder to understand, but it also leads to slow performance, not unlike with statements.)")%string
  ; (* 499 *) "What does the ECMAScript standard have to say about this state of affairs? Surprisingly, almost nothing. Until ES5, the standard did  not even acknowledge the existence of block-local function declara- tions; function declarations are  officially  specified  to  appear  only at the outermost level of other functions or of a program. ES5 even recommends turning function declarations in nonstandard contexts into a warning or error, and popular JavaScript implementations report them as an error in strict mode—a strict-mode program with a block-local function declaration will report a syntax error. This helps detect unportable code, and it clears a path for future versions of the"
  ; (* 500 *) " "
  ; (* 501 *) EmptyString
  ; (* 502 *) "standard to specify more sensible and portable semantics for block- local declarations."
  ; (* 503 *) "In the meantime, the best way to write portable functions is to avoid ever putting function declarations in local blocks or substatements.  If you want to write a nested function declaration, put it at the outer- most level of its parent function, as shown in the original version of the code. If, on the other hand, you need to choose between functions conditionally, the best way to do this is with var declarations and function expressions:"
  ; (* 504 *) ("function f() &#123; return " ++ dq ++ "global" ++ dq ++ "; &#125;")%string
  ; (* 505 *) EmptyString
  ; (* 506 *) "function test(x) &#123;"
  ; (* 507 *) "var g = f, result = [];"
  ; (* 508 *) "if (x) &#123;"
  ; (* 509 *) ("g = function() &#123; return " ++ dq ++ "local" ++ dq ++ "; &#125;")%string
  ; (* 510 *) EmptyString
  ; (* 511 *) "result.push(g());"
  ; (* 512 *) "&#125;"
  ; (* 513 *) "result.push(g());"
  ; (* 514 *) "return result;"
  ; (* 515 *) "&#125;"
  ; (* 516 *) "This eliminates the mystery of the scoping of the inner variable (renamed here to g): It is unconditionally bound as a local variable, and only the assignment is conditional. The result is unambiguous and fully portable."
  ; (* 517 *) EmptyString
  ; (* 518 *) "Things to Remember"
  ; (* 519 *) "✦	Always keep function declarations at the outermost level of a pro- gram or a containing function to avoid unportable behavior."
  ; (* 520 *) "✦	Use var declarations with conditional assignment instead of condi- tional function declarations."
  ; (* 521 *) EmptyString
  ; (* 522 *) "Item 16: Avoid Creating Local Variables with eval"
  ; (* 523 *) "JavaScript’s eval function is an incredibly powerful and flexible tool. Powerful tools are easy to abuse, so they’re worth understanding. One of the simplest ways to run afoul of eval is to allow it to interfere with scope."
  ; (* 524 *) "Calling eval interprets its argument as a JavaScript program, but that program runs in the local scope of the caller. The global variables of the embedded program get created as locals of the calling program:"
  ; (* 525 *) " "
  ; (* 526 *) "Item 16:  Avoid Creating Local Variables with eval	53"
  ; (* 527 *) EmptyString
  ; (* 528 *) "function test(x) &#123;"
  ; (* 529 *) ("eval(" ++ dq ++ "var y = x;" ++ dq ++ "); // dynamic binding")%string
  ; (* 530 *) "return y;"
  ; (* 531 *) "&#125;"
  ; (* 532 *) ("test(" ++ dq ++ "hello" ++ dq ++ "); // " ++ dq ++ "hello" ++ dq)%string
  ; (* 533 *) "This example looks clear, but it behaves subtly differently than the var declaration would behave if it were directly included in the body of test. The var declaration is only executed when the eval function is called. Placing an eval in a conditional context brings its variables into scope only if the conditional is executed:"
  ; (* 534 *) ("var y = " ++ dq ++ "global" ++ dq ++ ";")%string
  ; (* 535 *) "function test(x) &#123;"
  ; (* 536 *) "if (x) &#123;"
  ; (* 537 *) ("eval(" ++ dq ++ "var y = 'local';" ++ dq ++ "); // dynamic binding")%string
  ; (* 538 *) "&#125;"
  ; (* 539 *) "return y;"
  ; (* 540 *) "&#125;"
  ; (* 541 *) ("test(true);	// " ++ dq ++ "local" ++ dq)%string
  ; (* 542 *) ("test(false); // " ++ dq ++ "global" ++ dq)%string
  ; (* 543 *) "Basing scoping decisions on the dynamic behavior of a program is almost always a bad idea. The result is that simply understanding which binding a variable refers to requires following the details of how the program executes. This is especially tricky when the source code passed to eval is not even defined locally:"
  ; (* 544 *) ("var y = " ++ dq ++ "global" ++ dq ++ ";")%string
  ; (* 545 *) "function test(src) &#123;"
  ; (* 546 *) "eval(src); // may dynamically bind"
  ; (* 547 *) "return y;"
  ; (* 548 *) "&#125;"
  ; (* 549 *) ("test(" ++ dq ++ "var y = 'local';" ++ dq ++ "); // " ++ dq ++ "local" ++ dq)%string
  ; (* 550 *) ("test(" ++ dq ++ "var z = 'local';" ++ dq ++ "); // " ++ dq ++ "global" ++ dq)%string
  ; (* 551 *) "This code is brittle and unsafe: It gives external callers the power to change the internal scoping of the test function. Expecting eval to modify its containing scope is also not safe for compatibility with ES5 strict mode, which runs eval in a nested scope to prevent this kind of pollution. A simple way to ensure that eval does not affect outer scopes is to run it in an explicitly nested scope:"
  ; (* 552 *) ("var y = " ++ dq ++ "global" ++ dq ++ ";")%string
  ; (* 553 *) "function test(src) &#123;"
  ; (* 554 *) "(function() &#123; eval(src); &#125;)();"
  ; (* 555 *) "return y;"
  ; (* 556 *) "&#125;"
  ; (* 557 *) " "
  ; (* 558 *) EmptyString
  ; (* 559 *) ("test(" ++ dq ++ "var y = 'local';" ++ dq ++ "); // " ++ dq ++ "global" ++ dq)%string
  ; (* 560 *) ("test(" ++ dq ++ "var z = 'local';" ++ dq ++ "); // " ++ dq ++ "global" ++ dq)%string
  ; (* 561 *) EmptyString
  ; (* 562 *) "Things to Remember"
  ; (* 563 *) "✦	Avoid creating variables with eval that pollute the caller’s scope."
  ; (* 564 *) "✦	If eval code might create global variables, wrap the call in a nested function to prevent scope pollution."
  ; (* 565 *) EmptyString
  ; (* 566 *) "Item 17: Prefer Indirect eval to Direct eval"
  ; (* 567 *) "The eval function has a secret weapon: It’s more than just a function."
  ; (* 568 *) "Most functions have access to the scope where they are defined, and nothing else. But eval has access to the full scope at the point where it’s called. This is such immense power that when compiler writers first tried to optimize JavaScript, they discovered that eval made it difficult to make any function calls efficient, since every function call needed to make its scope available at runtime in case the function turned out to be eval."
  ; (* 569 *) "As a compromise, the language standard evolved to distinguish two different ways of calling eval. A function call involving the identifier eval is considered a “direct” call to eval:"
  ; (* 570 *) ("var x = " ++ dq ++ "global" ++ dq ++ ";")%string
  ; (* 571 *) "function test() &#123;"
  ; (* 572 *) ("var x = " ++ dq ++ "local" ++ dq ++ ";")%string
  ; (* 573 *) ("return eval(" ++ dq ++ "x" ++ dq ++ "); // direct eval")%string
  ; (* 574 *) "&#125;"
  ; (* 575 *) ("test(); // " ++ dq ++ "local" ++ dq)%string
  ; (* 576 *) "In this case, compilers are required to ensure that the executed pro- gram has complete access to the local scope of the caller. The other kind of call to eval is considered “indirect,” and evaluates its argu- ment in global scope. For example, binding the eval function to a dif- ferent variable name and calling it through the alternate name causes the code to lose access to any local scope:"
  ; (* 577 *) ("var x = " ++ dq ++ "global" ++ dq ++ ";")%string
  ; (* 578 *) ("function test() &#123; var x = " ++ dq ++ "local" ++ dq ++ "; var f = eval;")%string
  ; (* 579 *) ("return f(" ++ dq ++ "x" ++ dq ++ "); // indirect eval")%string
  ; (* 580 *) "&#125;"
  ; (* 581 *) ("test(); // " ++ dq ++ "global" ++ dq)%string
  ; (* 582 *) " "
  ; (* 583 *) "Item 17: Prefer Indirect eval to Direct eval	55"
  ; (* 584 *) EmptyString
  ; (* 585 *) "The exact definition of direct eval depends on the rather idiosyncratic specification language of the ECMAScript standard. In practice, the only syntax that can produce a direct eval is a variable with the name eval, possibly surrounded by (any number of) parentheses. A concise way to write an indirect call to eval is to use the expression sequenc- ing operator (,) with an apparently pointless number literal:"
  ; (* 586 *) "(0,eval)(src);"
  ; (* 587 *) "How does this peculiar-looking function call work? The number lit- eral 0 is evaluated but its value is ignored, and the parenthesized sequence expression produces the eval function. So (0,eval) behaves almost exactly the same as the plain identifier eval, with the one important difference being that the whole call expression is treated as an indirect eval."
  ; (* 588 *) "The power of direct eval can be easily abused. For example, evaluat- ing a source string coming from over the network can expose inter- nals to untrusted parties. Item 16 talks about the dangers of eval dynamically creating local variables; these dangers are only possible with direct eval. Moreover, direct eval costs dearly in performance.  In general, you should assume that direct eval causes its containing function and all containing functions up to the outermost level of the program to be considerably slower."
  ; (* 589 *) "There are occasionally reasons to use direct eval. But unless there’s  a clear need for the extra power of inspecting local scope, use the less easily abused and less expensive indirect eval."
  ; (* 590 *) EmptyString
  ; (* 591 *) "Things to Remember"
  ; (* 592 *) "✦	Wrap eval in a sequence expression with a useless literal to force the use of indirect eval."
  ; (* 593 *) "✦	Prefer indirect eval to direct eval whenever possible."
  ].

(** The whole file as one string. *)
Definition Chapter2 : string := String.concat newline Chapter2_lines.

(** Length of a string as a binary number (the file is 43049 bytes long). *)
Fixpoint byte_length (s : string) (acc : N) : N :=
  match s with
  | EmptyString => acc
  | String _ rest => byte_length rest (N.succ acc)
  end.

(** ** Reading the markup *)

(** [strip_prefix p s] is what follows [p] in [s] when [s] starts with [p]. *)
Fixpoint strip_prefix (p s : string) : option string :=
  match p, s with
  | EmptyString, _ => Some s
  | String a p', String b s' => if Ascii.eqb a b then strip_prefix p' s' else None
  | String _ _, EmptyString => None
  end.

Definition starts_with (p s : string) : bool :=
  match strip_prefix p s with
  | Some _ => true
  | None => false
  end.

(** [strip_suffix q s] is what precedes [q] in [s] when [s] ends with [q]. *)
Fixpoint strip_suffix (q s : string) : option string :=
  if String.eqb s q then Some EmptyString
  else match s with
       | EmptyString => None
       | String a rest => option_map (String a) (strip_suffix q rest)
       end.

(** [contains p s]: [p] occurs somewhere in [s]. *)
Fixpoint contains (p s : string) : bool :=
  starts_with p s ||
  match s with
  | EmptyString => false
  | String _ rest => contains p rest
  end.

(** Number of positions of [s] at which [p] starts. *)
Fixpoint occurrences (p s : string) : nat :=
  match s with
  | EmptyString => 0
  | String _ rest => (if starts_with p s then 1 else 0) + occurrences p rest
  end.

(** Lines paired with their line number in the file (counted from 1). *)
Definition numbered (ls : list string) : list (nat * string) :=
  combine (seq 1 (List.length ls)) ls.

(** *** Code listings *)

(** The delimiters of a code listing, as the file writes them (lines 11 and 18). *)
Definition listing_open : string := "<pre><code>".
Definition listing_close : string := "</code></pre>".

Inductive marker : Set :=
  | ListingOpen
  | ListingClose.

Definition is_open (m : marker) : bool :=
  match m with ListingOpen => true | ListingClose => false end.

Definition is_close (m : marker) : bool :=
  match m with ListingOpen => false | ListingClose => true end.

(** The listing delimiters of a text, in the order they occur. *)
Fixpoint markers (s : string) : list marker :=
  match s with
  | EmptyString => []
  | String _ rest =>
      if starts_with listing_open s then ListingOpen :: markers rest
      else if starts_with listing_close s then ListingClose :: markers rest
      else markers rest
  end.

(** Delimiters alternate when, read from outside a listing
    ([inside = false]), an opening is only met outside a listing, a closing
    only inside one, and the text ends outside. *)
Fixpoint alternating (inside : bool) (ms : list marker) : bool :=
  match ms with
  | [] => negb inside
  | ListingOpen :: rest => negb inside && alternating true rest
  | ListingClose :: rest => inside && alternating false rest
  end.

(** [n] listings one after the other. *)
Fixpoint listing_pairs (n : nat) : list marker :=
  match n with
  | 0 => []
  | S k => ListingOpen :: ListingClose :: listing_pairs k
  end.

(** A listing is unterminated when its opening delimiter is not followed by
    a closing delimiter before the next opening or the end of the text: its
    content is cut off before the matching closing marker.  This is the
    condition on which the chapter content model has a document rejected. *)
Fixpoint unterminated (ms : list marker) : bool :=
  match ms with
  | [] => false
  | ListingClose :: rest => unterminated rest
  | ListingOpen :: rest =>
      match rest with
      | ListingClose :: rest' => unterminated rest'
      | _ => true
      end
  end.

(** *** Headings *)

(** The file writes a heading on a line of its own, between [<hN>] and
    [</hN>] (lines 1, 5 and 92); the content model has levels 1, 2 and 3. *)
Definition level_digit (n : nat) : string :=
  match n with
  | 1 => "1"
  | 2 => "2"
  | 3 => "3"
  | _ => EmptyString
  end.

Definition heading_open (n : nat) : string := ("<h" ++ level_digit n ++ ">")%string.
Definition heading_close (n : nat) : string := ("</h" ++ level_digit n ++ ">")%string.

(** The text of a level-[n] heading line. *)
Definition heading_at (n : nat) (line : string) : option string :=
  match strip_prefix (heading_open n) line with
  | Some rest => strip_suffix (heading_close n) rest
  | None => None
  end.

Definition heading_of_line (line : string) : option (nat * string) :=
  match heading_at 1 line, heading_at 2 line, heading_at 3 line with
  | Some t, _, _ => Some (1, t)
  | None, Some t, _ => Some (2, t)
  | None, None, Some t => Some (3, t)
  | None, None, None => None
  end.

Record heading : Set := Heading
  { h_line : nat;      (* line number in the file *)
    h_level : nat;
    h_text : string }.

Fixpoint headings_from (n : nat) (ls : list string) : list heading :=
  match ls with
  | [] => []
  | l :: rest =>
      match heading_of_line l with
      | Some (lv, t) => Heading n lv t :: headings_from (S n) rest
      | None => headings_from (S n) rest
      end
  end.

(** The headings of a file, in reading order. *)
Definition headings (ls : list string) : list heading := headings_from 1 ls.

(** A line carries heading markup when a heading tag of any level opens or
    closes somewhere in it. *)
Definition has_heading_markup (line : string) : bool :=
  contains "<h" line || contains "</h" line.

(** A line is plain text when no tag opens in it. *)
Definition plain_text (line : string) : bool := negb (contains "<" line).

(** The numbered lines that start with [p]. *)
Definition lines_starting (p : string) (ls : list string) : list (nat * string) :=
  filter (fun nl => starts_with p (snd nl)) (numbered ls).

(** The lines that open with the title of item [k]. *)
Definition item_title_lines (k : string) (ls : list string) : list (nat * string) :=
  lines_starting ("Item " ++ k ++ ":")%string ls.

(** The first line that opens with the title of item [k]. *)
Definition item_title (k : string) (ls : list string) : option string :=
  option_map snd (hd_error (item_title_lines k ls)).

(** The items whose title the file writes without heading markup. *)
Definition plain_items : list string :=
  ["9"; "11"; "12"; "13"; "14"; "15"; "16"; "17"].

(** Heading nesting: a level-3 heading needs a level-1 or level-2 heading
    somewhere before it.  [parent] tells whether one has been read. *)
Fixpoint nesting_ok (parent : bool) (levels : list nat) : bool :=
  match levels with
  | [] => true
  | lv :: rest =>
      if (lv <=? 2)%nat then nesting_ok true rest
      else parent && nesting_ok parent rest
  end.

(** *** Entities *)

(** The entities the file writes for braces and angle brackets inside its
    text (lines 13, 14, 15 and 248), each with the character it stands for. *)
Definition entities : list (string * ascii) :=
  [ ("&#123;", "{"%char);
    ("&#125;", "}"%char);
    ("&#60;", "<"%char);
    ("&#62;", ">"%char) ].

(** The entity a text starts with, if any: its character and what follows. *)
Fixpoint entity_prefix (table : list (string * ascii)) (s : string)
  : option (ascii * string) :=
  match table with
  | [] => None
  | (e, c) :: table' =>
      match strip_prefix e s with
      | Some rest => Some (c, rest)
      | None => entity_prefix table' s
      end
  end.

(** The entity that stands for a character, if it has one. *)
Fixpoint entity_of (table : list (string * ascii)) (c : ascii) : option string :=
  match table with
  | [] => None
  | (e, c') :: table' =>
      if Ascii.eqb c c' then Some e else entity_of table' c
  end.

Definition special (c : ascii) : bool :=
  match entity_of entities c with
  | Some _ => true
  | None => false
  end.

(** A raw text is entity-encoded when none of the special characters stands
    in it literally. *)
Fixpoint entity_encoded (s : string) : bool :=
  match s with
  | EmptyString => true
  | String c rest => negb (special c) && entity_encoded rest
  end.

(** The entity of the file a text starts with. *)
Definition entity_at (s : string) : option (ascii * string) :=
  entity_prefix entities s.

(** Modelled from the spec: the re-encoding of literal text that section 6
    of the specification leaves to an encoder outside the repository: each
    special character becomes its entity and every other character is
    kept. *)
Fixpoint encode (s : string) : string :=
  match s with
  | EmptyString => EmptyString
  | String c rest =>
      match entity_of entities c with
      | Some e => (e ++ encode rest)%string
      | None => String c (encode rest)
      end
  end.

(** The listing of lines 11 to 18: what stands between its delimiters. *)
Definition listing_11_18 : string :=
  (newline ++ String.concat newline (firstn 6 (skipn 11 Chapter2_lines)) ++ newline)%string.

Definition inspect {A : Type} (a : A) : { b : A | a = b } := exist _ a eq_refl.

(** *** Decoding

    [decode] recurses on what follows an entity, which is shorter than the
    text it was read from. *)

Lemma strip_prefix_length (p s rest : string) :
  strip_prefix p s = Some rest ->
  String.length s = String.length p + String.length rest.
Proof.
  revert s. induction p as [|a p IH]; intros s H; simpl in H.
  - now inversion H.
  - destruct s as [|b s]; [discriminate|].
    destruct (Ascii.eqb a b); [|discriminate].
    simpl. f_equal. now apply IH.
Qed.

Lemma entity_prefix_shorter (table : list (string * ascii)) (s : string) c rest :
  Forall (fun ec => fst ec <> EmptyString) table ->
  entity_prefix table s = Some (c, rest) ->
  String.length rest < String.length s.
Proof.
  induction table as [|[e c'] table IH]; intros Hne H; simpl in H; [discriminate|].
  inversion Hne as [|? ? He Hne']; subst.
  destruct (strip_prefix e s) as [rest'|] eqn:E.
  - inversion H; subst. apply strip_prefix_length in E.
    simpl in He. destruct e; [contradiction|]. simpl in E. lia.
  - now apply IH.
Qed.

Lemma entity_at_shorter (s : string) c rest :
  entity_at s = Some (c, rest) -> String.length rest < String.length s.
Proof.
  apply entity_prefix_shorter. repeat constructor; discriminate.
Qed.

Opaque entity_at.

(** Modelled from the spec: the decoding of entities into literal text
    that section 6 of the specification gives to [parse], which is not part
    of the repository.  Read from left to right, each entity becomes the
    character it stands for and every other character is kept. *)
Equations? decode (s : string) : string by wf (String.length s) lt :=
  decode EmptyString := EmptyString;
  decode (String a r) with inspect (entity_at (String a r)) := {
    | exist _ (Some (c, rest)) E => String c (decode rest);
    | exist _ None _ => String a (decode r) }.
Proof.
  exact (entity_at_shorter _ c rest E).
Qed.

Transparent entity_at.


(** ** The code listings of the chapter

    The chapter prints JavaScript functions and says how they behave.  The
    functions below are those listings, statement by statement, with the
    braces and angle brackets of the file decoded.  What a listing leaves
    open (the values an array holds, the numbers and their arithmetic,
    [String.prototype.trim]) is a parameter of its section. *)

Module Js.

(** [for (i = start, n = ...; i < n; i++) body], for a body that assigns
    neither [i] nor [n]: [count] rounds, the body seeing [i], [i + 1], ...
    A body that throws ([None]) ends the loop. *)
Fixpoint for_range {St : Type} (count i : nat) (body : nat -> St -> option St) (s : St)
  : option St :=
  match count with
  | 0 => Some s
  | S c =>
      match body i s with
      | Some s' => for_range c (S i) body s'
      | None => None
      end
  end.

(** [while (cond) body] on a state the body may change in any way; [None]
    when the body throws or [fuel] rounds do not reach the end. *)
Fixpoint while {St : Type} (fuel : nat) (cond : St -> bool) (body : St -> option St) (s : St)
  : option St :=
  match fuel with
  | 0 => None
  | S f =>
      if cond s then
        match body s with
        | Some s' => while f cond body s'
        | None => None
        end
      else Some s
  end.

End Js.

Module JsArray.
Section Array.
Context {value : Type} (undefined : value).

(** [a[i]]: the element at index [i]; past the end it is [undefined]. *)
Definition get (a : list value) (i : nat) : value := nth i a undefined.

(** [a[i] = v]: an index past the end lengthens the array, and the
    indices skipped on the way read [undefined]. *)
Fixpoint set (a : list value) (i : nat) (v : value) : list value :=
  match i, a with
  | 0, [] => [v]
  | 0, _ :: rest => v :: rest
  | S i', [] => undefined :: set [] i' v
  | S i', x :: rest => x :: set rest i' v
  end.
End Array.
End JsArray.

(** Lines 82 to 84:
<<
function swap(a, i, j) { var temp = a[i]; a[i] = a[j];
a[j] = temp;
}
>>
    The caller's array is changed in place; [swap] gives the array as the
    call leaves it. *)
Module Swap.
Section Swap.
Context {value : Type} (undefined : value).

Definition swap (a : list value) (i j : nat) : list value :=
  let temp := JsArray.get undefined a i in
  let a := JsArray.set undefined a i (JsArray.get undefined a j) in
  JsArray.set undefined a j temp.
End Swap.
End Swap.

(** Lines 416 to 424 (the same body stands at lines 392 to 400 as a named
    function expression, and at lines 406 to 414 under the name [f]):
<<
function find(tree, key) {
if (!tree) {
return null;
}
if (tree.key === key) {
return tree.value;
}
return find(tree.left, key) || find(tree.right, key);
}
>>
    A tree is [null] (or a missing child) or an object with [key], [value],
    [left] and [right]; [strict_eq] is [===] on keys and [truthy] tells which
    values [||] lets through. *)
Module Find.
Section Find.
Context {key value : Type}.
Context (strict_eq : key -> key -> bool) (null : value) (truthy : value -> bool).

Inductive tree : Type :=
  | Null
  | Node (k : key) (v : value) (left right : tree).

(** [x || y] *)
Definition or (x y : value) : value := if truthy x then x else y.

Fixpoint find (t : tree) (key0 : key) : value :=
  match t with
  | Null => null
  | Node k v l r =>
      if strict_eq k key0 then v
      else or (find l key0) (find r key0)
  end.

(** The keys and values a tree holds. *)
Fixpoint bindings (t : tree) : list (key * value) :=
  match t with
  | Null => []
  | Node k v l r => (k, v) :: bindings l ++ bindings r
  end.

(** [key0] is the key of some node. *)
Definition has_key (t : tree) (key0 : key) : bool :=
  existsb (fun kv => strict_eq (fst kv) key0) (bindings t).
End Find.
Arguments tree : clear implicits.
Arguments Null {key value}.
End Find.

(** Lines 244 to 252:
<<
function isWinner(player, others) {
var highest = 0;
for (var i = 0, n = others.length; i < n; i++) {
var player = others[i];
if (player.score > highest) { highest = player.score;
}
}
return player.score > highest;
}
>>
    [var player] declares no new variable: it is the parameter.  [None] is
    the TypeError of reading [score] off [undefined]. *)
Module IsWinner.
Section IsWinner.
Context {player num : Type}.
Context (score : player -> num) (gt : num -> num -> bool) (zero : num).

(** The variables of a call that the loop assigns. *)
Record locals : Type := Locals { l_player : player; l_highest : num }.

(** One round of the loop, [others[i]] being [p]. *)
Definition round (s : locals) (p : player) : locals :=
  let s := Locals p (l_highest s) in
  if gt (score (l_player s)) (l_highest s)
  then Locals (l_player s) (score (l_player s))
  else s.

Definition body (others : list player) (i : nat) (s : locals) : option locals :=
  match nth_error others i with
  | None => None
  | Some p => Some (round s p)
  end.

Definition isWinner (p : player) (others : list player) : option bool :=
  let s := Locals p zero in
  match Js.for_range (List.length others) 0 (body others) s with
  | None => None
  | Some s => Some (gt (score (l_player s)) (l_highest s))
  end.
End IsWinner.
Arguments locals : clear implicits.
End IsWinner.

(** Lines 325 to 330 (and again lines 343 to 348, with the [var] inside
    the loop head, which declares the same variables):
<<
function wrapElements(a) {
var result = [], i, n;
for (i = 0, n = a.length; i < n; i++) { result[i] = function() { return a[i]; };
}
return result;
}
>>
    and the repair of lines 354 to 365 (lines 367 to 374 pass [i] as the
    argument [j] of the inner function instead, to the same effect):
<<
function wrapElements(a) {
var result = [];
for (var i = 0, n = a.length; i < n; i++) {
(function() {
var j = i;
result[i] = function() { return a[j]; };
})();
}
return result;
}
>>
    The closures of a call share the variables of that call: what a closure
    reads of [i] is what [i] holds when the closure is called. *)
Module WrapElements.
Section WrapElements.
Context {value : Type} (undefined : value).

(** The variables [i] and [n] of one call of [wrapElements]. *)
Record frame : Type := Frame { f_i : nat; f_n : nat }.

(** The code of a closure, run on the variables of the call that made it. *)
Definition closure : Type := frame -> value.

(** A call under way: its variables and the array [result], whose holes
    are [None]. *)
Record state : Type := State { st_frame : frame; st_result : list (option closure) }.

Definition loop_cond (s : state) : bool :=
  (f_i (st_frame s) <? f_n (st_frame s))%nat.

Definition next_i (fr : frame) : frame := Frame (S (f_i fr)) (f_n fr).

(** [result[i] = function() { return a[i]; }; i++] *)
Definition loop_body (a : list value) (s : state) : option state :=
  let fr := st_frame s in
  let result :=
    JsArray.set None (st_result s) (f_i fr)
      (Some (fun fr' : frame => JsArray.get undefined a (f_i fr'))) in
  Some (State (next_i fr) result).

Definition wrapElements (fuel : nat) (a : list value) : option state :=
  Js.while fuel loop_cond (loop_body a) (State (Frame 0 (List.length a)) []).

(** [(function() { var j = i; result[i] = function() { return a[j]; }; })(); i++]:
    [j] belongs to the call of the inner function and is never assigned
    again. *)
Definition loop_body_iife (a : list value) (s : state) : option state :=
  let fr := st_frame s in
  let j := f_i fr in
  let result :=
    JsArray.set None (st_result s) (f_i fr)
      (Some (fun _ : frame => JsArray.get undefined a j)) in
  Some (State (next_i fr) result).

Definition wrapElements_iife (fuel : nat) (a : list value) : option state :=
  Js.while fuel loop_cond (loop_body_iife a) (State (Frame 0 (List.length a)) []).

(** [wrapped[k]()] once the call has returned; [None] is the TypeError of
    calling [undefined]. *)
Definition call (s : state) (k : nat) : option value :=
  match JsArray.get None (st_result s) k with
  | Some c => Some (c (st_frame s))
  | None => None
  end.
End WrapElements.
Arguments frame : clear implicits.
Arguments state : clear implicits.
End WrapElements.

(** Lines 12 to 17 and 21 to 26, two functions that share the global
    variables [i], [n] and [sum]:
<<
var i, n, sum; // globals
function averageScore(players) { sum = 0;
for (i = 0, n = players.length; i < n; i++) { sum += score(players[i]);
}
return sum / n;
}
var i, n, sum; // same globals as averageScore!
function score(player) { sum = 0;
for (i = 0, n = player.levels.length; i < n; i++) { sum += player.levels[i].score;
}
return sum;
}
>>
    and lines 31 to 43, the same two functions with [var i, n, sum;] moved
    inside each.  Numbers and their [+] and [/] are parameters; [i] and [n]
    are array indices. *)
Module Scores.
Section Scores.
Context {num : Type} (zero : num) (add div : num -> num -> num) (of_nat : nat -> num).

Record level : Type := Level { l_score : num }.
Record player : Type := Player { p_levels : list level }.

(** The global variables. *)
Record globals : Type := Globals { g_i : nat; g_n : nat; g_sum : num }.

Definition loop_cond (g : globals) : bool := (g_i g <? g_n g)%nat.

(** [sum += player.levels[i].score; i++] *)
Definition score_body (p : player) (g : globals) : option globals :=
  match nth_error (p_levels p) (g_i g) with
  | None => None
  | Some l =>
      let g := Globals (g_i g) (g_n g) (add (g_sum g) (l_score l)) in
      Some (Globals (S (g_i g)) (g_n g) (g_sum g))
  end.

(** [score] of lines 21 to 26: the globals it leaves and what it returns. *)
Definition score_globals (fuel : nat) (p : player) (g : globals) : option (globals * num) :=
  let g := Globals (g_i g) (g_n g) zero in
  let g := Globals 0 (List.length (p_levels p)) (g_sum g) in
  match Js.while fuel loop_cond (score_body p) g with
  | None => None
  | Some g => Some (g, g_sum g)
  end.

(** [sum += score(players[i]); i++].  The value of [sum] to add to is read
    before [score] is called; [i] and [n] are read again after it. *)
Definition average_body (fuel : nat) (players : list player) (g : globals) : option globals :=
  let lval := g_sum g in
  match nth_error players (g_i g) with
  | None => None
  | Some p =>
      match score_globals fuel p g with
      | None => None
      | Some (g, r) =>
          let g := Globals (g_i g) (g_n g) (add lval r) in
          Some (Globals (S (g_i g)) (g_n g) (g_sum g))
      end
  end.

(** [averageScore] of lines 12 to 17. *)
Definition averageScore_globals (fuel : nat) (players : list player) (g : globals)
  : option (globals * num) :=
  let g := Globals (g_i g) (g_n g) zero in
  let g := Globals 0 (List.length players) (g_sum g) in
  match Js.while fuel loop_cond (average_body fuel players) g with
  | None => None
  | Some g => Some (g, div (g_sum g) (of_nat (g_n g)))
  end.

(** [score] of lines 38 to 43, its variables local. *)
Definition score (p : player) : option num :=
  Js.for_range (List.length (p_levels p)) 0
    (fun i sum =>
       match nth_error (p_levels p) i with
       | None => None
       | Some l => Some (add sum (l_score l))
       end)
    zero.

(** [averageScore] of lines 31 to 36, its variables local. *)
Definition averageScore (players : list player) : option num :=
  match
    Js.for_range (List.length players) 0
      (fun i sum =>
         match nth_error players i with
         | None => None
         | Some p =>
             match score p with
             | None => None
             | Some r => Some (add sum r)
             end
         end)
      zero
  with
  | None => None
  | Some sum => Some (div sum (of_nat (List.length players)))
  end.

(** The scores of the levels of a player, added from the left to 0. *)
Definition total (p : player) : num :=
  fold_left (fun sum l => add sum (l_score l)) (p_levels p) zero.
End Scores.
Arguments level : clear implicits.
Arguments player : clear implicits.
Arguments globals : clear implicits.
End Scores.

(** Lines 267 to 275 (lines 256 to 265 are the same function with [var]
    repeated in each loop head):
<<
function trimSections(header, body, footer) {
var i, n;
for (i = 0, n = header.length; i < n; i++) { header[i] = header[i].trim();
}
for (i = 0, n = body.length; i < n; i++) { body[i] = body[i].trim();
}
for (i = 0, n = footer.length; i < n; i++) { footer[i] = footer[i].trim();
}
}
>>
    An array element is a string or, [None], [undefined]; [trim] is
    [String.prototype.trim].  The three arrays are changed in place and are
    taken to be three different arrays. *)
Module TrimSections.
Section TrimSections.
Context (trim : string -> string).

(** One loop: [a[i] = a[i].trim()] for each index; [None] is the TypeError
    of calling [trim] on [undefined]. *)
Definition trim_body (i : nat) (a : list (option string)) : option (list (option string)) :=
  match JsArray.get None a i with
  | None => None
  | Some s => Some (JsArray.set None a i (Some (trim s)))
  end.

Definition trim_loop (a : list (option string)) : option (list (option string)) :=
  Js.for_range (List.length a) 0 trim_body a.

Definition trimSections (header body footer : list (option string))
  : option (list (option string) * list (option string) * list (option string)) :=
  match trim_loop header with
  | None => None
  | Some header =>
      match trim_loop body with
      | None => None
      | Some body =>
          match trim_loop footer with
          | None => None
          | Some footer => Some (header, body, footer)
          end
      end
  end.
End TrimSections.
End TrimSections.

(** Sample values for the instances below. *)
Module Sample.

Inductive value : Set :=
  | VNull
  | VNumber (n : nat)
  | VString (s : string).

(** [0] and the empty string are falsy, like [null]. *)
Definition truthy (v : value) : bool :=
  match v with
  | VNull => false
  | VNumber n => negb (n =? 0)%nat
  | VString s => negb (String.eqb s EmptyString)
  end.

Definition tree : Find.tree string value :=
  Find.Node "m" (VNumber 1)
    (Find.Node "foo" (VNumber 0) Find.Null Find.Null)
    (Find.Node "z" (VString "last") Find.Null Find.Null).

End Sample.

(** ** The embedded file *)

(** The embedded text has the 593 lines and the 43049 bytes of the file. *)
Lemma chapter2_size :
  List.length Chapter2_lines = 593 /\ byte_length Chapter2 0%N = 43049%N.
Proof. split; vm_compute; reflexivity. Qed.

(** ** Listing delimiters *)

Lemma alternating_pairs (n : nat) : alternating false (listing_pairs n) = true.
Proof.
  induction n as [|n IH]; simpl; [reflexivity | exact IH].
Qed.

Lemma alternating_inv (ms : list marker) :
  alternating false ms = true -> exists n, ms = listing_pairs n.
Proof.
  remember (List.length ms) as k eqn:Hk.
  revert ms Hk.
  induction k as [k IH] using lt_wf_ind.
  intros [|[|] [|[|] rest]] Hk H; simpl in H; try discriminate.
  - exists 0. reflexivity.
  - destruct (IH (List.length rest)) with (ms := rest) as [n Hn]; trivial.
    + subst k. simpl. lia.
    + exists (S n). simpl. now rewrite Hn.
Qed.

Lemma count_open_pairs (n : nat) :
  List.length (filter is_open (listing_pairs n)) = n.
Proof.
  induction n as [|n IH]; simpl; [reflexivity | now rewrite IH].
Qed.

Lemma count_close_pairs (n : nat) :
  List.length (filter is_close (listing_pairs n)) = n.
Proof.
  induction n as [|n IH]; simpl; [reflexivity | now rewrite IH].
Qed.

(** In an alternating sequence the delimiter after an opening is a closing. *)
Lemma alternating_open_closed (ms : list marker) :
  forall inside pre post,
    alternating inside ms = true ->
    ms = pre ++ ListingOpen :: post ->
    exists post', post = ListingClose :: post'.
Proof.
  intros inside pre. revert ms inside.
  induction pre as [|m pre IH]; intros ms inside post Halt ->; simpl in Halt.
  - apply andb_prop in Halt as [_ Halt].
    destruct post as [|[|] post']; simpl in Halt; try discriminate.
    now exists post'.
  - destruct m; apply andb_prop in Halt as [_ Halt];
      eapply IH; eauto.
Qed.

(** In an alternating sequence the delimiter before a closing is an opening. *)
Lemma alternating_close_opened (ms : list marker) :
  forall inside pre post,
    alternating inside ms = true ->
    ms = pre ++ ListingClose :: post ->
    (pre = [] /\ inside = true) \/ exists pre', pre = pre' ++ [ListingOpen].
Proof.
  intros inside pre. revert ms inside.
  induction pre as [|m pre IH]; intros ms inside post Halt ->; simpl in Halt.
  - apply andb_prop in Halt as [Hin _]. now left.
  - right. destruct m; apply andb_prop in Halt as [_ Halt].
    + destruct (IH _ _ _ Halt eq_refl) as [[-> _]|[pre' ->]].
      * now exists [].
      * now exists (ListingOpen :: pre').
    + destruct (IH _ _ _ Halt eq_refl) as [[_ Hin]|[pre' ->]].
      * discriminate.
      * now exists (ListingClose :: pre').
Qed.

Lemma alternating_terminated (ms : list marker) :
  alternating false ms = true -> unterminated ms = false.
Proof.
  intros H. destruct (alternating_inv ms H) as [n ->]. clear H.
  induction n as [|n IH]; simpl; [reflexivity | exact IH].
Qed.

(** The delimiters of the chapter: fourteen listings, one after the other. *)
Lemma chapter2_markers : markers Chapter2 = listing_pairs 14.
Proof. vm_compute. reflexivity. Qed.

(** C9: in the chapter source the listing delimiters are balanced and
    strictly alternate.  [<pre><code>] occurs 14 times and [</code></pre>]
    14 times; read in order the delimiters alternate starting outside a
    listing and ending outside one; every opening delimiter is followed by a
    closing delimiter before the next opening, and every closing delimiter
    closes the opening just before it.  Hence no listing of the chapter is
    unterminated: the condition under which parsing rejects a listing does
    not arise on the repository's own content. *)
Theorem chapter2_listing_delimiters_balanced :
  occurrences listing_open Chapter2 = 14 /\
  occurrences listing_close Chapter2 = 14 /\
  List.length (filter is_open (markers Chapter2)) = 14 /\
  List.length (filter is_close (markers Chapter2)) = 14 /\
  alternating false (markers Chapter2) = true /\
  (forall pre post,
      markers Chapter2 = pre ++ ListingOpen :: post ->
      exists post', post = ListingClose :: post') /\
  (forall pre post,
      markers Chapter2 = pre ++ ListingClose :: post ->
      exists pre', pre = pre' ++ [ListingOpen]) /\
  unterminated (markers Chapter2) = false.
Proof.
  assert (Halt : alternating false (markers Chapter2) = true)
    by (rewrite chapter2_markers; apply alternating_pairs).
  split; [vm_compute; reflexivity|].
  split; [vm_compute; reflexivity|].
  split; [rewrite chapter2_markers; apply count_open_pairs|].
  split; [rewrite chapter2_markers; apply count_close_pairs|].
  split; [exact Halt|].
  split; [|split].
  - intros pre post E. eapply alternating_open_closed; eauto.
  - intros pre post E.
    destruct (alternating_close_opened _ _ _ _ Halt E) as [[_ Hin]|Hpre].
    + discriminate.
    + exact Hpre.
  - apply alternating_terminated, Halt.
Qed.

(** ** Headings *)

(** [nesting_ok] says what its description says: every heading of level 3
    has a heading of level 1 or 2 before it. *)
Lemma nesting_ok_iff (levels : list nat) (parent : bool) :
  nesting_ok parent levels = true <->
  (forall pre lv post,
      levels = pre ++ lv :: post -> 2 < lv ->
      parent = true \/ exists p, In p pre /\ p <= 2).
Proof.
  revert parent. induction levels as [|l rest IH]; intros parent; simpl.
  - split; [|reflexivity]. intros _ [|? ?] ? ? E; discriminate E.
  - destruct (Nat.leb_spec l 2) as [Hl|Hl]; split.
    + intros _ [|x pre] lv post E Hlv; injection E as -> E.
      * lia.
      * right. exists x. split; [now left | exact Hl].
    + intros _. apply IH. intros ? ? ? _ _. now left.
    + intros H. apply andb_prop in H as [Hp H].
      intros [|x pre] lv post E Hlv; injection E as -> E.
      * now left.
      * destruct (proj1 (IH parent) H pre lv post E Hlv) as [?|[p [Hin Hle]]].
        -- now left.
        -- right. exists p. split; [now right | exact Hle].
    + intros H. apply andb_true_intro. split.
      * destruct (H [] l rest eq_refl Hl) as [?|[p [[] _]]]. assumption.
      * apply IH. intros pre lv post -> Hlv.
        destruct (H (l :: pre) lv post eq_refl Hlv) as [?|[p [[<-|Hin] Hle]]].
        -- now left.
        -- lia.
        -- right. now exists p.
Qed.

(** The headings of the chapter. *)
Lemma chapter2_headings :
  headings Chapter2_lines =
    [ Heading 1 1 "Variable Scope";
      Heading 5 3 "Item 8: Minimize Use of the Global Object";
      Heading 92 3 "Item 10: Avoid with" ].
Proof. vm_compute. reflexivity. Qed.

(** C10: the chapter has exactly one level-1 heading, on its first line,
    and after it only the two level-3 headings of Items 8 and 10 (lines 5
    and 92); it has no level-2 heading, and no other line carries heading
    markup.  The titles of Items 9 and 11 to 17 stand on plain text lines
    (the title of Item 9 on line 73; lines 260, 336, 476, 526 and 583 repeat
    a title as a running page header).  Every level-3 heading has the
    level-1 heading before it, so the chapter meets the heading-nesting
    rule. *)
Theorem chapter2_heading_structure :
  headings Chapter2_lines =
    [ Heading 1 1 "Variable Scope";
      Heading 5 3 "Item 8: Minimize Use of the Global Object";
      Heading 92 3 "Item 10: Avoid with" ] /\
  map fst (filter (fun nl => has_heading_markup (snd nl)) (numbered Chapter2_lines))
    = [1; 5; 92] /\
  occurrences (heading_open 2) Chapter2 = 0 /\
  occurrences (heading_close 2) Chapter2 = 0 /\
  map (fun k => map fst (item_title_lines k Chapter2_lines)) plain_items
    = [[73]; [170]; [241; 260]; [323; 336]; [384]; [464; 476]; [522; 526]; [566; 583]] /\
  forallb
    (fun k => forallb (fun nl => plain_text (snd nl)) (item_title_lines k Chapter2_lines))
    plain_items = true /\
  map (fun k => item_title k Chapter2_lines) plain_items
    = [ Some "Item 9: Always Declare Local Variables";
        Some "Item 11: Get Comfortable with Closures";
        Some "Item 12: Understand Variable Hoisting";
        Some "Item 13: Use Immediately Invoked Function Expressions to Create Local Scopes";
        Some "Item 14: Beware of Unportable Scoping of Named Function Expressions";
        Some "Item 15: Beware of Unportable Scoping of Block-Local Function Declarations";
        Some "Item 16: Avoid Creating Local Variables with eval";
        Some "Item 17: Prefer Indirect eval to Direct eval" ] /\
  (forall h, In h (headings Chapter2_lines) -> h_level h = 3 ->
     exists p, In p (headings Chapter2_lines) /\ h_level p = 1 /\ h_line p < h_line h) /\
  nesting_ok false (map h_level (headings Chapter2_lines)) = true.
Proof.
  split; [exact chapter2_headings|].
  split; [vm_compute; reflexivity|].
  split; [vm_compute; reflexivity|].
  split; [vm_compute; reflexivity|].
  split; [vm_compute; reflexivity|].
  split; [vm_compute; reflexivity|].
  split; [vm_compute; reflexivity|].
  rewrite chapter2_headings. split.
  - intros h Hin Hlv.
    exists (Heading 1 1 "Variable Scope"). split; [now left|]. split; [reflexivity|].
    destruct Hin as [<-|[<-|[<-|[]]]]; simpl in *; try discriminate; lia.
  - apply nesting_ok_iff. simpl.
    intros [|x [|y [|z pre]]] lv post E Hlv; right;
      injection E as <- E; try lia;
      exists 1; (split; [now left | lia]).
Qed.

(** ** Entities *)

Lemma strip_prefix_app (p s rest : string) :
  strip_prefix p s = Some rest -> s = (p ++ rest)%string.
Proof.
  revert s. induction p as [|a p IH]; intros s H; simpl in H.
  - now inversion H.
  - destruct s as [|b s]; [discriminate|].
    destruct (Ascii.eqb_spec a b) as [->|]; [|discriminate].
    simpl. f_equal. now apply IH.
Qed.

Lemma entity_encoded_app (s t : string) :
  entity_encoded (s ++ t) = entity_encoded s && entity_encoded t.
Proof.
  induction s as [|a s IH]; simpl; [reflexivity|].
  now rewrite IH, andb_assoc.
Qed.

(** A text that starts with an entity is that entity followed by the rest. *)
Lemma entity_prefix_sound (table : list (string * ascii)) (s : string) c rest :
  entity_prefix table s = Some (c, rest) ->
  exists e, In (e, c) table /\ s = (e ++ rest)%string.
Proof.
  induction table as [|[e c'] table IH]; simpl; [discriminate|].
  destruct (strip_prefix e s) as [rest'|] eqn:E.
  - intros H. injection H as -> ->. exists e. split; [now left|].
    now apply strip_prefix_app.
  - intros H. destruct (IH H) as [e' [Hin Hs]]. exists e'. split; [now right | exact Hs].
Qed.

(** No two entities of the file stand for the same character, so the
    entity of a character is the one the table lists with it. *)
Lemma entity_of_entities (e : string) (c : ascii) :
  In (e, c) entities -> entity_of entities c = Some e.
Proof.
  intros [H|[H|[H|[H|[]]]]]; injection H as <- <-; reflexivity.
Qed.

(** A text that starts with no entity and with no special character keeps
    its first character under [encode]. *)
Lemma not_special_entity_of (c : ascii) :
  special c = false -> entity_of entities c = None.
Proof.
  unfold special. now destruct (entity_of entities c).
Qed.

Lemma encode_cons (c : ascii) (text : string) :
  encode (String c text) =
  match entity_of entities c with
  | Some e => (e ++ encode text)%string
  | None => String c (encode text)
  end.
Proof. reflexivity. Qed.

Lemma entity_encoded_cons (c : ascii) (raw : string) :
  entity_encoded (String c raw) = negb (special c) && entity_encoded raw.
Proof. reflexivity. Qed.

(** Decoding then encoding gives back an entity-encoded text. *)
Lemma encode_decode (raw : string) :
  entity_encoded raw = true -> encode (decode raw) = raw.
Proof.
  funelim (decode raw); intros Henc.
  - reflexivity.
  - destruct (entity_prefix_sound entities _ _ _ E) as [e [Hin Hs]].
    rewrite Hs in Henc |- *.
    rewrite entity_encoded_app in Henc. apply andb_prop in Henc as [_ Hrest].
    rewrite encode_cons, (entity_of_entities e c Hin).
    now rewrite (H Hrest).
  - rewrite entity_encoded_cons in Henc. apply andb_prop in Henc as [Ha Hr].
    apply negb_true_iff in Ha.
    rewrite encode_cons, (not_special_entity_of a Ha).
    now rewrite (H Hr).
Qed.

(** [encode] writes no special character. *)
Lemma encode_entity_encoded (text : string) : entity_encoded (encode text) = true.
Proof.
  induction text as [|c text IH]; [reflexivity|].
  rewrite encode_cons.
  destruct (entity_of entities c) as [e|] eqn:E.
  - rewrite entity_encoded_app, IH, andb_true_r.
    revert E. unfold entities, entity_of.
    repeat (destruct (Ascii.eqb c _); [intros H; injection H as <-; reflexivity|]).
    discriminate.
  - rewrite entity_encoded_cons, IH, andb_true_r. unfold special. now rewrite E.
Qed.

(** Without the encoding the round trip is lost: a literal brace and its
    entity decode to the same text. *)
Remark decode_literal_brace :
  decode "{" = decode "&#123;" /\ encode (decode "{") <> "{".
Proof.
  split; [reflexivity | discriminate].
Qed.

(** The other way round is not an identity either: literal text that spells
    an entity is encoded unchanged and decodes to the entity's character. *)
Remark decode_encode_entity_text :
  encode "&#123;" = "&#123;" /\ decode (encode "&#123;") = "{".
Proof.
  split; reflexivity.
Qed.

(** In the chapter the special characters are always written as entities:
    no brace stands in the file, each angle bracket belongs to one of the
    heading and listing tags, and each ampersand starts one of the four
    entities. *)
Lemma chapter2_specials_encoded :
  occurrences "{" Chapter2 = 0 /\
  occurrences "}" Chapter2 = 0 /\
  occurrences "<" Chapter2
    = 2 * occurrences listing_open Chapter2 + 2 * occurrences listing_close Chapter2
      + 2 * List.length (headings Chapter2_lines) /\
  occurrences ">" Chapter2 = occurrences "<" Chapter2 /\
  map (fun ec => occurrences (fst ec) Chapter2) entities = [103; 103; 15; 2] /\
  occurrences "&" Chapter2 = 103 + 103 + 15 + 2.
Proof.
  repeat (split; [vm_compute; reflexivity|]). vm_compute. reflexivity.
Qed.

(** Lines 11 to 18 of the file are the first listing between its delimiters. *)
Lemma listing_11_18_in_file :
  String.concat newline (firstn 8 (skipn 10 Chapter2_lines))
  = (listing_open ++ listing_11_18 ++ listing_close)%string.
Proof. vm_compute. reflexivity. Qed.

(** C4: decoding the entity-encoded raw form of a code listing into literal
    text and encoding it again gives back the raw form, byte for byte.  In
    particular an encoded brace decodes to a literal brace, which encodes
    back to the same entity. *)
Theorem listing_roundtrip (raw : string) :
  entity_encoded raw = true ->
  encode (decode raw) = raw /\
  (decode "&#123;" = "{" /\ encode "{" = "&#123;") /\
  (decode "&#125;" = "}" /\ encode "}" = "&#125;").
Proof.
  intros Henc. split; [now apply encode_decode|].
  split; split; reflexivity.
Qed.

Lemma listing_roundtrip_witness :
  entity_encoded listing_11_18 = true /\
  encode (decode listing_11_18) = listing_11_18.
Proof.
  split.
  - vm_compute. reflexivity.
  - apply (listing_roundtrip listing_11_18). vm_compute. reflexivity.
Defined.

(** ** Arrays *)

Section ArrayFacts.
Context {value : Type} (undefined : value).
Local Abbreviation get := (JsArray.get undefined).
Local Abbreviation set := (JsArray.set undefined).

Lemma set_length (a : list value) (i : nat) (v : value) :
  List.length (set a i v) = Nat.max (List.length a) (S i).
Proof.
  revert a. induction i as [|i IH]; intros [|x a]; simpl; rewrite ?IH; simpl; lia.
Qed.

Lemma get_set_same (a : list value) (i : nat) (v : value) :
  get (set a i v) i = v.
Proof.
  revert a. induction i as [|i IH]; intros [|x a]; simpl; try reflexivity;
    apply IH.
Qed.

Lemma get_nil (k : nat) : get [] k = undefined.
Proof. now destruct k. Qed.

Lemma get_set_other (a : list value) (i k : nat) (v : value) :
  k <> i -> get (set a i v) k = get a k.
Proof.
  revert a k. induction i as [|i IH]; intros [|x a] [|k] Hk;
    try contradiction; try reflexivity.
  - now destruct k.
  - change (get (set [] i v) k = undefined).
    rewrite IH by congruence. apply get_nil.
  - change (get (set a i v) k = get a k). apply IH. congruence.
Qed.

(** Arrays of the same length that read the same at every index are equal. *)
Lemma array_ext (a b : list value) :
  List.length a = List.length b ->
  (forall k, get a k = get b k) -> a = b.
Proof.
  intros Hlen Hget. apply (nth_ext a b undefined undefined Hlen).
  intros k _. apply Hget.
Qed.
End ArrayFacts.

Lemma set_at_length {A : Type} (u : A) (a : list A) (v : A) :
  JsArray.set u a (List.length a) v = a ++ [v].
Proof.
  induction a as [|x a IH]; simpl; [reflexivity | now rewrite IH].
Qed.

Lemma get_map_seq {A : Type} (u : A) (F : nat -> A) (n k : nat) :
  k < n -> JsArray.get u (map F (seq 0 n)) k = F k.
Proof.
  intros Hk. unfold JsArray.get.
  rewrite (nth_indep _ u (F 0)) by (rewrite length_map, length_seq; exact Hk).
  rewrite map_nth, seq_nth by exact Hk. reflexivity.
Qed.

Lemma get_past_end {A : Type} (u : A) (a : list A) (k : nat) :
  List.length a <= k -> JsArray.get u a k = u.
Proof.
  intros Hk. unfold JsArray.get. now apply nth_overflow.
Qed.

Lemma set_middle {A : Type} (u : A) (pre post : list A) (x v : A) :
  JsArray.set u (pre ++ x :: post) (List.length pre) v = pre ++ v :: post.
Proof.
  induction pre as [|y pre IH]; simpl; [reflexivity | now rewrite IH].
Qed.

Lemma get_middle {A : Type} (u : A) (pre post : list A) (x : A) :
  JsArray.get u (pre ++ x :: post) (List.length pre) = x.
Proof.
  unfold JsArray.get. apply nth_middle.
Qed.


(** ** [swap] *)

Section SwapFacts.
Context {value : Type} (undefined : value).
Local Abbreviation get := (JsArray.get undefined).
Local Abbreviation swap := (Swap.swap undefined).

(** What [swap] leaves at each index. *)
Lemma swap_get (a : list value) (i j k : nat) :
  get (swap a i j) k =
  if (k =? j)%nat then get a i else if (k =? i)%nat then get a j else get a k.
Proof.
  unfold Swap.swap.
  destruct (Nat.eqb_spec k j) as [->|Hkj].
  - apply get_set_same.
  - rewrite get_set_other by exact Hkj.
    destruct (Nat.eqb_spec k i) as [->|Hki].
    + apply get_set_same.
    + now apply get_set_other.
Qed.

Lemma swap_length (a : list value) (i j : nat) :
  List.length (swap a i j) = Nat.max (List.length a) (Nat.max (S i) (S j)).
Proof.
  unfold Swap.swap. rewrite !set_length. lia.
Qed.


(** X2: on indices inside the array, swapping twice gives the array back. *)
Theorem swap_involutive (a : list value) (i j : nat) :
  i < List.length a -> j < List.length a ->
  swap (swap a i j) i j = a.
Proof.
  intros Hi Hj. apply (array_ext undefined).
  - rewrite !swap_length. lia.
  - intros k. rewrite !swap_get.
    destruct (Nat.eqb_spec k j) as [->|Hkj].
    + destruct (Nat.eqb_spec i j) as [->|Hij]; [reflexivity|].
      now rewrite Nat.eqb_refl.
    + destruct (Nat.eqb_spec k i) as [->|Hki]; [|reflexivity].
      now rewrite Nat.eqb_refl.
Qed.

(** Past the end the second swap does not shorten the array again. *)
Lemma swap_twice_grows (a : list value) (i j : nat) :
  List.length a <= i \/ List.length a <= j ->
  swap (swap a i j) i j <> a.
Proof.
  intros H E. apply (f_equal (@List.length value)) in E.
  rewrite !swap_length in E. lia.
Qed.
End SwapFacts.

Lemma swap_involutive_witness :
  1 < List.length [10; 20; 30] /\ 2 < List.length [10; 20; 30] /\
  Swap.swap 0 (Swap.swap 0 [10; 20; 30] 1 2) 1 2 = [10; 20; 30].
Proof.
  split; [simpl; lia|]. split; [simpl; lia|].
  apply (swap_involutive 0 [10; 20; 30] 1 2); simpl; lia.
Defined.

Section SwapPermutation.
Context {value : Type} (undefined : value).
Local Abbreviation get := (JsArray.get undefined).
Local Abbreviation set := (JsArray.set undefined).
Local Abbreviation swap := (Swap.swap undefined).

(** The order of the two indices does not matter. *)
Lemma swap_comm (a : list value) (i j : nat) : swap a i j = swap a j i.
Proof.
  apply (array_ext undefined).
  - rewrite !swap_length. lia.
  - intros k. rewrite !swap_get.
    destruct (Nat.eqb_spec k j) as [Ej|Hkj]; destruct (Nat.eqb_spec k i) as [Ei|Hki];
      subst; reflexivity.
Qed.

Lemma swap_same (a : list value) (i : nat) :
  i < List.length a -> swap a i i = a.
Proof.
  intros Hi. apply (array_ext undefined).
  - rewrite swap_length. lia.
  - intros k. rewrite swap_get.
    destruct (Nat.eqb_spec k i) as [->|_]; reflexivity.
Qed.

Lemma swap_split (l1 m l3 : list value) (x y : value) :
  swap (l1 ++ x :: m ++ y :: l3) (List.length l1) (List.length (l1 ++ x :: m))
  = l1 ++ y :: m ++ x :: l3.
Proof.
  assert (Gi : get (l1 ++ x :: m ++ y :: l3) (List.length l1) = x)
    by apply get_middle.
  assert (Gj : get (l1 ++ x :: m ++ y :: l3) (List.length (l1 ++ x :: m)) = y).
  { replace (l1 ++ x :: m ++ y :: l3) with ((l1 ++ x :: m) ++ y :: l3)
      by (rewrite <- app_assoc; reflexivity).
    apply get_middle. }
  unfold Swap.swap. cbv zeta. rewrite Gi, Gj, set_middle.
  replace (List.length (l1 ++ x :: m)) with (List.length (l1 ++ y :: m))
    by (rewrite !length_app; reflexivity).
  replace (l1 ++ y :: m ++ y :: l3) with ((l1 ++ y :: m) ++ y :: l3)
    by (rewrite <- app_assoc; reflexivity).
  rewrite set_middle, <- app_assoc. reflexivity.
Qed.

Lemma swap_permutation_lt (a : list value) (i j : nat) :
  i < j -> j < List.length a -> Permutation a (swap a i j).
Proof.
  intros Hij Hj.
  destruct (nth_split a undefined (n := i)) as (l1 & l2 & Ea & Hl1); [lia|].
  assert (Hl2 : j - S i < List.length l2).
  { apply (f_equal (@List.length value)) in Ea.
    rewrite length_app in Ea. simpl in Ea. lia. }
  destruct (nth_split l2 undefined Hl2) as (m & l3 & El2 & Hm).
  remember (nth i a undefined) as x. remember (nth (j - S i) l2 undefined) as y.
  rewrite El2 in Ea. rewrite Ea.
  replace i with (List.length l1) by exact Hl1.
  replace j with (List.length (l1 ++ x :: m))
    by (rewrite length_app; simpl; lia).
  rewrite swap_split.
  apply Permutation_app_head.
  transitivity (x :: y :: m ++ l3).
  - constructor. symmetry. apply Permutation_middle.
  - transitivity (y :: x :: m ++ l3); [constructor|].
    constructor. apply Permutation_middle.
Qed.

(** X3: on indices inside the array [swap] only rearranges: the array
    after the call is a permutation of the array before it. *)
Theorem swap_permutation (a : list value) (i j : nat) :
  i < List.length a -> j < List.length a -> Permutation a (swap a i j).
Proof.
  intros Hi Hj.
  destruct (Nat.lt_total i j) as [H|[->|H]].
  - now apply swap_permutation_lt.
  - now rewrite swap_same.
  - rewrite swap_comm. now apply swap_permutation_lt.
Qed.
End SwapPermutation.

Lemma swap_permutation_witness :
  0 < List.length [10; 20; 30] /\ 2 < List.length [10; 20; 30] /\
  Permutation [10; 20; 30] (Swap.swap 0 [10; 20; 30] 0 2).
Proof.
  split; [simpl; lia|]. split; [simpl; lia|].
  apply (swap_permutation 0 [10; 20; 30] 0 2); simpl; lia.
Defined.

(** ** Loops *)

(** A counted loop whose body handles the element at its index is a fold
    over the array. *)
Lemma for_range_fold {St A : Type} (xs : list A) (f : St -> A -> St)
  (body : nat -> St -> option St) :
  (forall i x s, nth_error xs i = Some x -> body i s = Some (f s x)) ->
  forall pre rest s,
    xs = pre ++ rest ->
    Js.for_range (List.length rest) (List.length pre) body s
    = Some (fold_left f rest s).
Proof.
  intros Hbody pre rest. revert pre.
  induction rest as [|x rest IH]; intros pre s E; simpl; [reflexivity|].
  rewrite (Hbody (List.length pre) x s).
  - replace (S (List.length pre)) with (List.length (pre ++ [x]))
      by (rewrite length_app; simpl; lia).
    apply IH. now rewrite <- app_assoc.
  - rewrite E, nth_error_app2, Nat.sub_diag by lia. reflexivity.
Qed.

Lemma for_range_fold_all {St A : Type} (xs : list A) (f : St -> A -> St)
  (body : nat -> St -> option St) (s : St) :
  (forall i x s, nth_error xs i = Some x -> body i s = Some (f s x)) ->
  Js.for_range (List.length xs) 0 body s = Some (fold_left f xs s).
Proof.
  intros Hbody. exact (for_range_fold xs f body Hbody [] xs s eq_refl).
Qed.

(** ** [find] *)

Section FindFacts.
Context {key value : Type}.
Context (strict_eq : key -> key -> bool) (null : value) (truthy : value -> bool).
Local Abbreviation find := (Find.find strict_eq null truthy).
Local Abbreviation has_key := (Find.has_key strict_eq).
Local Abbreviation tree := (Find.tree key value).

Lemma has_key_node (k : key) (v : value) (l r : tree) (key0 : key) :
  has_key (Find.Node k v l r) key0
  = strict_eq k key0 || has_key l key0 || has_key r key0.
Proof.
  unfold Find.has_key. simpl. now rewrite existsb_app, orb_assoc.
Qed.

(** X4: looking up a key that no node of the tree carries gives [null]. *)
Theorem find_absent (t : tree) (key0 : key) :
  has_key t key0 = false -> find t key0 = null.
Proof.
  induction t as [|k v l IHl r IHr]; intros H; [reflexivity|].
  rewrite has_key_node in H.
  apply orb_false_elim in H as [H Hr]. apply orb_false_elim in H as [Hk Hl].
  simpl. rewrite Hk. unfold Find.or.
  rewrite (IHl Hl), (IHr Hr). now destruct (truthy null).
Qed.

(** X5: whatever [find] returns is [null] or the value of a node whose key
    is strictly equal to the key looked up. *)
Theorem find_sound (t : tree) (key0 : key) :
  find t key0 = null \/
  exists k v, In (k, v) (Find.bindings t) /\ strict_eq k key0 = true /\ find t key0 = v.
Proof.
  induction t as [|k v l IHl r IHr]; [now left|]. simpl.
  destruct (strict_eq k key0) eqn:Hk.
  - right. exists k, v. auto.
  - unfold Find.or. destruct (truthy (Find.find strict_eq null truthy l key0)).
    + destruct IHl as [E|(k' & v' & Hin & Hk' & E)]; [now left|].
      right. exists k', v'. split; [|now split].
      right. apply in_or_app. now left.
    + destruct IHr as [E|(k' & v' & Hin & Hk' & E)]; [now left|].
      right. exists k', v'. split; [|now split].
      right. apply in_or_app. now right.
Qed.

(** X6: when every value stored under the key is truthy, a key the tree
    carries is found: the result is truthy. *)
Theorem find_present (t : tree) (key0 : key) :
  has_key t key0 = true ->
  (forall k v, In (k, v) (Find.bindings t) -> strict_eq k key0 = true -> truthy v = true) ->
  truthy (find t key0) = true.
Proof.
  induction t as [|k v l IHl r IHr]; intros H Hv; [discriminate|].
  rewrite has_key_node in H. simpl.
  destruct (strict_eq k key0) eqn:Hk.
  - apply (Hv k v); [now left | exact Hk].
  - simpl in H. unfold Find.or.
    destruct (truthy (Find.find strict_eq null truthy l key0)) eqn:Hl; [exact Hl|].
    apply IHr.
    + destruct (has_key r key0); [reflexivity|].
      rewrite orb_false_r in H.
      assert (Hl' : false = true); [|discriminate Hl'].
      apply IHl; [exact H|].
      intros k' v' Hin. apply Hv. right. apply in_or_app. now left.
    + intros k' v' Hin. apply Hv. right. apply in_or_app. now right.
Qed.

(** X7: a falsy value is not found below the root.  When the left child
    carries the key with a falsy value and the right subtree does not carry
    the key, [find] returns [null] although the tree carries the key. *)
Theorem find_misses_falsy (k' k : key) (v' v : value) (l0 r0 r : tree) (key0 : key) :
  strict_eq k' key0 = false ->
  strict_eq k key0 = true ->
  truthy v = false ->
  has_key r key0 = false ->
  has_key (Find.Node k' v' (Find.Node k v l0 r0) r) key0 = true /\
  find (Find.Node k' v' (Find.Node k v l0 r0) r) key0 = null.
Proof.
  intros Hk' Hk Hv Hr. split.
  - rewrite !has_key_node, Hk. now rewrite orb_true_r.
  - simpl. rewrite Hk', Hk. unfold Find.or. rewrite Hv.
    now apply find_absent.
Qed.
End FindFacts.

Lemma find_absent_witness :
  Find.has_key String.eqb Sample.tree "bar" = false /\
  Find.find String.eqb Sample.VNull Sample.truthy Sample.tree "bar" = Sample.VNull.
Proof.
  split; [reflexivity|].
  apply (find_absent String.eqb Sample.VNull Sample.truthy Sample.tree "bar"). reflexivity.
Defined.

Lemma find_present_witness :
  Find.has_key String.eqb Sample.tree "z" = true /\
  Sample.truthy (Find.find String.eqb Sample.VNull Sample.truthy Sample.tree "z") = true.
Proof.
  split; [reflexivity|].
  apply (find_present String.eqb Sample.VNull Sample.truthy Sample.tree "z"); [reflexivity|].
  intros k v [E|[E|[E|[]]]]; injection E as <- <-; intros H;
    try discriminate H; reflexivity.
Defined.

Lemma find_misses_falsy_witness :
  Find.has_key String.eqb Sample.tree "foo" = true /\
  Find.find String.eqb Sample.VNull Sample.truthy Sample.tree "foo" = Sample.VNull.
Proof.
  apply (find_misses_falsy String.eqb Sample.VNull Sample.truthy
           "m" "foo" (Sample.VNumber 1) (Sample.VNumber 0) Find.Null Find.Null
           (Find.Node "z" (Sample.VString "last") Find.Null Find.Null) "foo");
    reflexivity.
Defined.

(** ** [isWinner] *)

Section IsWinnerFacts.
Context {player num : Type}.
Context (score : player -> num) (gt : num -> num -> bool) (zero : num).
Local Abbreviation isWinner := (IsWinner.isWinner score gt zero).

Lemma isWinner_body_round (others : list player) (i : nat) (p : player)
  (s : IsWinner.locals player num) :
  nth_error others i = Some p ->
  IsWinner.body score gt others i s = Some (IsWinner.round score gt s p).
Proof.
  intros E. unfold IsWinner.body. now rewrite E.
Qed.

(** After a round on [p] the score of [p] does not exceed [highest]. *)
Lemma isWinner_round_last (s : IsWinner.locals player num) (p : player) :
  (forall x, gt x x = false) ->
  gt (score (IsWinner.l_player (IsWinner.round score gt s p)))
     (IsWinner.l_highest (IsWinner.round score gt s p)) = false.
Proof.
  intros Hirr. unfold IsWinner.round. simpl.
  destruct (gt (score p) (IsWinner.l_highest s)) eqn:E; simpl.
  - apply Hirr.
  - exact E.
Qed.

End IsWinnerFacts.


(** ** [wrapElements] *)

Section WrapElementsFacts.
Context {value : Type} (undefined : value).
Local Abbreviation frame := (WrapElements.frame).
Local Abbreviation closure := (WrapElements.closure (value := value)).
Local Abbreviation State := (WrapElements.State (value := value)).
Local Abbreviation Frame := (WrapElements.Frame).

(** A loop that stores at each index [i] the closure [mk i] ends with [i]
    equal to [n] and [result] holding the [n] closures. *)
Lemma wrap_loop (body : WrapElements.state value -> option (WrapElements.state value))
  (mk : nat -> closure) :
  (forall s,
      body s =
      Some (State (WrapElements.next_i (WrapElements.st_frame s))
              (JsArray.set None (WrapElements.st_result s)
                 (WrapElements.f_i (WrapElements.st_frame s))
                 (Some (mk (WrapElements.f_i (WrapElements.st_frame s))))))) ->
  forall d i fuel n,
    i + d = n -> d < fuel ->
    Js.while fuel WrapElements.loop_cond body
      (State (Frame i n) (map (fun k => Some (mk k)) (seq 0 i)))
    = Some (State (Frame n n) (map (fun k => Some (mk k)) (seq 0 n))).
Proof.
  intros Hbody. induction d as [|d IH]; intros i fuel n Hn Hfuel;
    (destruct fuel as [|fuel]; [lia|]); simpl;
    unfold WrapElements.loop_cond at 1; simpl.
  - replace i with n by lia. now rewrite Nat.ltb_irrefl.
  - destruct (Nat.ltb_spec i n) as [_|Hge]; [|lia].
    rewrite Hbody. simpl. unfold WrapElements.next_i. simpl.
    replace (JsArray.set None (map (fun k => Some (mk k)) (seq 0 i)) i (Some (mk i)))
      with (map (fun k => Some (mk k)) (seq 0 (S i))).
    + apply IH; lia.
    + rewrite seq_S, map_app. simpl.
      rewrite <- (set_at_length None). now rewrite length_map, length_seq.
Qed.

(** X9: every closure that [wrapElements] returns gives [undefined] when
    called, whatever the array holds: the closures share the one variable
    [i], which has reached [a.length] when the call returns.  The array
    returned is as long as [a]. *)
Theorem wrapElements_closures_see_final_i (a : list value) (fuel : nat) :
  List.length a < fuel ->
  exists s,
    WrapElements.wrapElements undefined fuel a = Some s /\
    List.length (WrapElements.st_result s) = List.length a /\
    WrapElements.f_i (WrapElements.st_frame s) = List.length a /\
    forall k, k < List.length a -> WrapElements.call s k = Some undefined.
Proof.
  intros Hfuel.
  pose (mk := fun _ : nat =>
                (fun fr' : frame => JsArray.get undefined a (WrapElements.f_i fr')) : closure).
  exists (State (Frame (List.length a) (List.length a))
            (map (fun k => Some (mk k)) (seq 0 (List.length a)))).
  split; [|split; [|split]].
  - unfold WrapElements.wrapElements.
    apply (wrap_loop (WrapElements.loop_body undefined a) mk
             (fun s => eq_refl) (List.length a) 0 fuel (List.length a));
      [reflexivity | exact Hfuel].
  - simpl. now rewrite length_map, length_seq.
  - reflexivity.
  - intros k Hk. unfold WrapElements.call. simpl.
    rewrite (get_map_seq None (fun k => Some (mk k))) by exact Hk.
    unfold mk. simpl. now rewrite get_past_end.
Qed.

(** X10: with the inner function called at once in each round, the closure
    stored at index [k] gives [a[k]] when called: each closure reads the [j]
    of its own round. *)
Theorem wrapElements_iife_closures_see_own_j (a : list value) (fuel : nat) :
  List.length a < fuel ->
  exists s,
    WrapElements.wrapElements_iife undefined fuel a = Some s /\
    List.length (WrapElements.st_result s) = List.length a /\
    forall k, k < List.length a ->
              WrapElements.call s k = Some (JsArray.get undefined a k).
Proof.
  intros Hfuel.
  pose (mk := fun j : nat => (fun _ : frame => JsArray.get undefined a j) : closure).
  exists (State (Frame (List.length a) (List.length a))
            (map (fun k => Some (mk k)) (seq 0 (List.length a)))).
  split; [|split].
  - unfold WrapElements.wrapElements_iife.
    apply (wrap_loop (WrapElements.loop_body_iife undefined a) mk
             (fun s => eq_refl) (List.length a) 0 fuel (List.length a));
      [reflexivity | exact Hfuel].
  - simpl. now rewrite length_map, length_seq.
  - intros k Hk. unfold WrapElements.call. simpl.
    now rewrite (get_map_seq None (fun k => Some (mk k))) by exact Hk.
Qed.
End WrapElementsFacts.

Lemma wrapElements_closures_see_final_i_witness :
  List.length [10; 20; 30; 40; 50] < 6 /\
  exists s,
    WrapElements.wrapElements 0 6 [10; 20; 30; 40; 50] = Some s /\
    List.length (WrapElements.st_result s) = List.length [10; 20; 30; 40; 50] /\
    WrapElements.f_i (WrapElements.st_frame s) = List.length [10; 20; 30; 40; 50] /\
    forall k, k < List.length [10; 20; 30; 40; 50] -> WrapElements.call s k = Some 0.
Proof.
  split; [simpl; lia|].
  apply (wrapElements_closures_see_final_i 0 [10; 20; 30; 40; 50] 6). simpl; lia.
Defined.

Lemma wrapElements_iife_closures_see_own_j_witness :
  List.length [10; 20; 30; 40; 50] < 6 /\
  exists s,
    WrapElements.wrapElements_iife 0 6 [10; 20; 30; 40; 50] = Some s /\
    List.length (WrapElements.st_result s) = List.length [10; 20; 30; 40; 50] /\
    forall k, k < List.length [10; 20; 30; 40; 50] ->
              WrapElements.call s k = Some (JsArray.get 0 [10; 20; 30; 40; 50] k).
Proof.
  split; [simpl; lia|].
  apply (wrapElements_iife_closures_see_own_j 0 [10; 20; 30; 40; 50] 6). simpl; lia.
Defined.

(** ** [score] and [averageScore] *)

Section ScoresFacts.
Context {num : Type} (zero : num) (add div : num -> num -> num) (of_nat : nat -> num).
Local Abbreviation player := (Scores.player num).
Local Abbreviation globals := (Scores.globals num).
Local Abbreviation Globals := (@Scores.Globals num).
Local Abbreviation total := (Scores.total zero add).
Local Abbreviation add_score := (fun (sum : num) (l : Scores.level num) => add sum (Scores.l_score l)).

(** The loop of [score] on the globals: from index [length pre] it adds the
    remaining scores and stops with [i] equal to [n]. *)
Lemma score_loop (p : player) (rest : list (Scores.level num)) :
  forall pre fuel sum,
    Scores.p_levels p = pre ++ rest ->
    List.length rest < fuel ->
    Js.while fuel Scores.loop_cond (Scores.score_body add p)
      (Globals (List.length pre) (List.length (Scores.p_levels p)) sum)
    = Some (Globals (List.length (Scores.p_levels p)) (List.length (Scores.p_levels p))
              (fold_left add_score rest sum)).
Proof.
  induction rest as [|l rest IH]; intros pre fuel sum E Hfuel;
    (destruct fuel as [|fuel]; [simpl in Hfuel; lia|]); simpl;
    unfold Scores.loop_cond at 1; simpl.
  - rewrite E, app_nil_r, Nat.ltb_irrefl. reflexivity.
  - destruct (Nat.ltb_spec (List.length pre) (List.length (Scores.p_levels p))) as [_|Hge];
      [|rewrite E, length_app in Hge; simpl in Hge; lia].
    unfold Scores.score_body at 1. simpl.
    replace (nth_error (Scores.p_levels p) (List.length pre)) with (Some l)
      by (rewrite E, nth_error_app2, Nat.sub_diag by lia; reflexivity).
    replace (S (List.length pre)) with (List.length (pre ++ [l]))
      by (rewrite length_app; simpl; lia).
    apply IH; [now rewrite <- app_assoc | simpl in Hfuel; lia].
Qed.

(** X11: on its own the [score] that uses the globals returns the scores of
    the player's levels added from the left, and it leaves the globals [i]
    and [n] both equal to the number of levels and [sum] equal to what it
    returned, whatever they held before. *)
Theorem score_globals_result (p : player) (g : globals) (fuel : nat) :
  List.length (Scores.p_levels p) < fuel ->
  Scores.score_globals zero add fuel p g
  = Some (Globals (List.length (Scores.p_levels p)) (List.length (Scores.p_levels p))
            (total p),
          total p).
Proof.
  intros Hfuel. unfold Scores.score_globals.
  cbn [Scores.g_i Scores.g_n Scores.g_sum].
  pose proof (score_loop p (Scores.p_levels p) [] fuel zero eq_refl Hfuel) as H.
  cbn [List.length] in H. rewrite H. reflexivity.
Qed.

(** X12: the [averageScore] that shares the globals with [score] runs its
    loop once.  For a non-empty array it returns the score of the first
    player divided by the number of that player's levels: the other players
    are never read and the number of players is not the divisor. *)
Theorem averageScore_globals_first_player_only
  (p0 : player) (others : list player) (g : globals) (fuel : nat) :
  1 < fuel ->
  List.length (Scores.p_levels p0) < fuel ->
  Scores.averageScore_globals zero add div of_nat fuel (p0 :: others) g
  = Some (Globals (S (List.length (Scores.p_levels p0))) (List.length (Scores.p_levels p0))
            (add zero (total p0)),
          div (add zero (total p0)) (of_nat (List.length (Scores.p_levels p0)))).
Proof.
  intros H1 Hfuel. unfold Scores.averageScore_globals.
  destruct fuel as [|[|fuel]]; try lia.
  cbn [Js.while]. unfold Scores.loop_cond at 1. cbn [Scores.g_i Scores.g_n List.length].
  change (0 <? S (List.length others))%nat with true. cbv iota.
  unfold Scores.average_body at 1.
  cbn [Scores.g_i Scores.g_n Scores.g_sum nth_error].
  rewrite (score_globals_result p0 _ (S (S fuel)) Hfuel).
  cbn [Scores.g_i Scores.g_n Scores.g_sum].
  unfold Scores.loop_cond at 1. cbn [Scores.g_i Scores.g_n].
  destruct (Nat.ltb_spec (S (List.length (Scores.p_levels p0)))
              (List.length (Scores.p_levels p0))) as [Hlt|_]; [lia|].
  reflexivity.
Qed.

Lemma score_local_result (p : player) : Scores.score zero add p = Some (total p).
Proof.
  unfold Scores.score, Scores.total.
  apply (for_range_fold_all (Scores.p_levels p) add_score).
  intros i l sum E. now rewrite E.
Qed.

End ScoresFacts.

Lemma score_globals_result_witness :
  List.length [Scores.Level 3; Scores.Level 5] < 3 /\
  Scores.score_globals 0 Nat.add 3 (Scores.Player [Scores.Level 3; Scores.Level 5])
    (Scores.Globals 7 7 7)
  = Some (Scores.Globals 2 2 8, 8).
Proof.
  split; [simpl; lia|].
  apply (score_globals_result 0 Nat.add (Scores.Player [Scores.Level 3; Scores.Level 5])
           (Scores.Globals 7 7 7) 3).
  simpl; lia.
Defined.

(** Two players with scores 3, 5 and 10, 20, 30: the average is 34, and the
    version that shares the globals returns 8 / 2. *)
Lemma averageScore_globals_first_player_only_witness :
  1 < 4 /\ List.length [Scores.Level 3; Scores.Level 5] < 4 /\
  Scores.averageScore_globals 0 Nat.add Nat.div (fun n => n) 4
    [Scores.Player [Scores.Level 3; Scores.Level 5];
     Scores.Player [Scores.Level 10; Scores.Level 20; Scores.Level 30]]
    (Scores.Globals 0 0 0)
  = Some (Scores.Globals 3 2 8, 4).
Proof.
  split; [lia|]. split; [simpl; lia|].
  apply (averageScore_globals_first_player_only 0 Nat.add Nat.div (fun n => n)
           (Scores.Player [Scores.Level 3; Scores.Level 5])
           [Scores.Player [Scores.Level 10; Scores.Level 20; Scores.Level 30]]
           (Scores.Globals 0 0 0) 4); simpl; lia.
Defined.

Example averageScore_local_sample :
  Scores.averageScore 0 Nat.add Nat.div (fun n => n)
    [Scores.Player [Scores.Level 3; Scores.Level 5];
     Scores.Player [Scores.Level 10; Scores.Level 20; Scores.Level 30]]
  = Some 34.
Proof. reflexivity. Qed.

(** ** [trimSections] *)

Section TrimSectionsFacts.
Context (trim : string -> string).
Local Abbreviation strings := (map (@Some string)).

Lemma trim_loop_from (rest : list string) :
  forall done : list (option string),
    Js.for_range (List.length rest) (List.length done)
      (TrimSections.trim_body trim) (done ++ strings rest)
    = Some (done ++ strings (map trim rest)).
Proof.
  induction rest as [|s rest IH]; intros done; simpl; [reflexivity|].
  unfold TrimSections.trim_body at 1.
  rewrite get_middle, set_middle.
  replace (S (List.length done)) with (List.length (done ++ [Some (trim s)]))
    by (rewrite length_app; simpl; lia).
  replace (done ++ Some (trim s) :: strings rest)
    with ((done ++ [Some (trim s)]) ++ strings rest)
    by (now rewrite <- app_assoc).
  rewrite IH. now rewrite <- app_assoc.
Qed.

Lemma trim_loop_strings (xs : list string) :
  TrimSections.trim_loop trim (strings xs) = Some (strings (map trim xs)).
Proof.
  unfold TrimSections.trim_loop. rewrite length_map.
  exact (trim_loop_from xs []).
Qed.

(** An [undefined] element makes the loop throw. *)
Lemma trim_loop_from_undefined (rest : list (option string)) :
  forall done : list (option string),
    In None rest ->
    Js.for_range (List.length rest) (List.length done)
      (TrimSections.trim_body trim) (done ++ rest) = None.
Proof.
  induction rest as [|x rest IH]; intros done Hin; [contradiction|].
  simpl. unfold TrimSections.trim_body at 1. rewrite get_middle.
  destruct x as [s|]; [|reflexivity].
  rewrite set_middle.
  replace (S (List.length done)) with (List.length (done ++ [Some (trim s)]))
    by (rewrite length_app; simpl; lia).
  replace (done ++ Some (trim s) :: rest) with ((done ++ [Some (trim s)]) ++ rest)
    by (now rewrite <- app_assoc).
  apply IH. destruct Hin as [E|Hin]; [discriminate | exact Hin].
Qed.

Lemma trim_loop_undefined (a : list (option string)) :
  In None a -> TrimSections.trim_loop trim a = None.
Proof.
  intros Hin. exact (trim_loop_from_undefined a [] Hin).
Qed.

(** X14: on three arrays of strings [trimSections] replaces every element
    of each by its trimmed form, in place and in order; the arrays keep
    their lengths and the call does not throw. *)
Theorem trimSections_trims_all (header body footer : list string) :
  TrimSections.trimSections trim (strings header) (strings body) (strings footer)
  = Some (strings (map trim header), strings (map trim body), strings (map trim footer)).
Proof.
  unfold TrimSections.trimSections. now rewrite !trim_loop_strings.
Qed.

(** X15: if one of the three arrays holds [undefined] somewhere, the call
    throws. *)
Theorem trimSections_throws_on_undefined (header body footer : list (option string)) :
  In None header \/ In None body \/ In None footer ->
  TrimSections.trimSections trim header body footer = None.
Proof.
  intros H. unfold TrimSections.trimSections.
  destruct (TrimSections.trim_loop trim header) as [header'|] eqn:Eh; [|reflexivity].
  destruct (TrimSections.trim_loop trim body) as [body'|] eqn:Eb; [|reflexivity].
  destruct (TrimSections.trim_loop trim footer) as [footer'|] eqn:Ef; [|reflexivity].
  destruct H as [H|[H|H]]; apply trim_loop_undefined in H; congruence.
Qed.
End TrimSectionsFacts.

Lemma trimSections_throws_on_undefined_witness :
  (In None [Some "a"] \/ In None [Some "b"; None] \/ In None [Some "c"]) /\
  TrimSections.trimSections (fun s => s) [Some "a"] [Some "b"; None] [Some "c"] = None.
Proof.
  assert (H : In None [Some "a"] \/ In (@None string) [Some "b"; None] \/ In None [Some "c"])
    by (right; left; right; left; reflexivity).
  split; [exact H|].
  exact (trimSections_throws_on_undefined (fun s => s) [Some "a"] [Some "b"; None] [Some "c"] H).
Defined.

